(** * pyspaceweather: the Space Weather client, embedded and verified

    A shallow embedding of [src/pyspaceweather/pyspaceweather.py].

    - Python values decoded from JSON are the inductive [value]; a [str] is a
      [string] whose characters are the code points below 256.
    - Exceptions are the inductive [exn]; a computation that may raise returns
      a [result].
    - [requests.post] is a field of the [platform] the client runs on; every
      request issued is appended to a log, so that "no request was made" and
      "exactly one request was made" are statements about that log.
    - [datetime.strptime] and [datetime.strftime] are embedded for the six
      directives of the two formats the client uses, following CPython's
      [_strptime.py] (a backtracking regular expression per directive). *)

From Stdlib Require Import ZArith List String Ascii Bool Lia PrimFloat.
Import ListNotations.
Local Open Scope string_scope.
Local Open Scope list_scope.
Local Open Scope Z_scope.
#[local] Set Warnings "-register-all".

(* ===================================================================== *)
(** ** datetime *)
(* ===================================================================== *)

(** A [datetime.datetime]. [tzinfo] is [None] for a naive value and the UTC
    offset in seconds for an aware one. *)
Record datetime := mk_datetime {
  year : Z; month : Z; day : Z;
  hour : Z; minute : Z; second : Z;
  microsecond : Z;
  tzinfo : option Z
}.

Definition is_leap (y : Z) : bool :=
  ((y mod 4 =? 0) && negb (y mod 100 =? 0)) || (y mod 400 =? 0).

Definition days_in_month (y m : Z) : Z :=
  if m =? 2 then (if is_leap y then 29 else 28)
  else if (m =? 4) || (m =? 6) || (m =? 9) || (m =? 11) then 30
  else 31.

(** The checks of the [datetime] constructor (MINYEAR = 1, MAXYEAR = 9999). *)
Definition valid_date (y m d : Z) : bool :=
  (1 <=? y) && (y <=? 9999) && (1 <=? m) && (m <=? 12) &&
  (1 <=? d) && (d <=? days_in_month y m).

Definition valid_hms (h mi s us : Z) : bool :=
  (0 <=? h) && (h <=? 23) && (0 <=? mi) && (mi <=? 59) &&
  (0 <=? s) && (s <=? 59) && (0 <=? us) && (us <=? 999999).

Definition valid_datetime (t : datetime) : bool :=
  valid_date (year t) (month t) (day t) &&
  valid_hms (hour t) (minute t) (second t) (microsecond t).

(* ===================================================================== *)
(** ** Python values, exceptions, results *)
(* ===================================================================== *)

(** What [response.json()] decodes to, plus [datetime] (the client stores
    parsed times back into decoded dictionaries and into its records).
    A [dict] keeps insertion order: an association list. *)
Inductive value :=
| VNone
| VBool (b : bool)
| VInt (n : Z)
| VFloat (f : float)
| VStr (s : string)
| VList (l : list value)
| VDict (d : list (string * value))
| VDatetime (t : datetime).

Record response := mk_response {
  status_code : Z;
  (** what [response.json()] decodes the body to; [None] when the body is
      not JSON *)
  content : option value
}.

(** The exception classes the client can meet. [HTTPError body] is
    [requests.HTTPError(response.json())]; [HTTPError_for_status r] is the
    [requests.HTTPError] raised by [r.raise_for_status()]. The text of a
    message composed by a library is abridged. *)
Inductive exn :=
| ValueError (msg : string)
| KeyError (key : value)
| TypeError
| IndexError
| JSONDecodeError
| HTTPError (body : value)
| HTTPError_for_status (r : response)
| ConnectionError
| Timeout.

(** [except ValueError]: [json.JSONDecodeError] is a subclass of it. *)
Definition is_ValueError (e : exn) : bool :=
  match e with ValueError _ | JSONDecodeError => true | _ => false end.

Definition is_KeyError (e : exn) : bool :=
  match e with KeyError _ => true | _ => false end.

(** [isinstance(e, requests.HTTPError)] *)
Definition is_HTTPError (e : exn) : bool :=
  match e with HTTPError _ | HTTPError_for_status _ => true | _ => false end.

Inductive result (A : Type) :=
| Ok (a : A)
| Raise (e : exn).
Arguments Ok {A} a.
Arguments Raise {A} e.

Definition rbind {A B} (m : result A) (k : A -> result B) : result B :=
  match m with Ok a => k a | Raise e => Raise e end.

(** [try: body except <cls>: handler] *)
Definition try_except {A} (body : result A) (cls : exn -> bool)
  (handler : result A) : result A :=
  match body with
  | Ok a => Ok a
  | Raise e => if cls e then handler else Raise e
  end.

Declare Scope result_scope.
Delimit Scope result_scope with result.
Notation "x <- m ;; k" := (rbind m (fun x => k))
  (at level 61, m at next level, right associativity) : result_scope.

(** A [for] loop whose body builds one item per element and may raise. *)
Fixpoint mapM {A B} (f : A -> result B) (l : list A) : result (list B) :=
  match l with
  | [] => Ok []
  | x :: l' =>
      match f x with
      | Raise e => Raise e
      | Ok y => match mapM f l' with
                | Raise e => Raise e
                | Ok ys => Ok (y :: ys)
                end
      end
  end.

(** A [for] loop that threads an accumulator. *)
Fixpoint foldM {A S} (f : S -> A -> result S) (l : list A) (s : S) : result S :=
  match l with
  | [] => Ok s
  | x :: l' => match f s x with
               | Raise e => Raise e
               | Ok s' => foldM f l' s'
               end
  end.

(* --------------------------------------------------------------------- *)
(** *** Truthiness, subscripting, iteration *)

Definition py_truthy (v : value) : bool :=
  match v with
  | VNone => false
  | VBool b => b
  | VInt n => negb (n =? 0)
  | VFloat f => negb (PrimFloat.eqb f 0%float)
  | VStr s => negb (String.eqb s "")
  | VList l => match l with [] => false | _ => true end
  | VDict d => match d with [] => false | _ => true end
  | VDatetime _ => true
  end.

Fixpoint dict_get (k : string) (d : list (string * value)) : option value :=
  match d with
  | [] => None
  | (k', v) :: d' => if String.eqb k k' then Some v else dict_get k d'
  end.

(** [d[k] = v]: an existing key keeps its place, a new one goes last. *)
Fixpoint dict_set (k : string) (v : value) (d : list (string * value))
  : list (string * value) :=
  match d with
  | [] => [(k, v)]
  | (k', v') :: d' =>
      if String.eqb k k' then (k', v) :: d' else (k', v') :: dict_set k v d'
  end.

(** [d.get(k)] *)
Definition dict_get_default (k : string) (d : list (string * value)) : value :=
  match dict_get k d with Some v => v | None => VNone end.

(** [v[k]] for a string [k]. *)
Definition getitem_str (v : value) (k : string) : result value :=
  match v with
  | VDict d => match dict_get k d with
               | Some x => Ok x
               | None => Raise (KeyError (VStr k))
               end
  | _ => Raise TypeError
  end.

Definition nth_py {A} (l : list A) (i : Z) : option A :=
  let n := Z.of_nat (List.length l) in
  if 0 <=? i then nth_error l (Z.to_nat i)
  else if 0 <=? n + i then nth_error l (Z.to_nat (n + i))
  else None.

Definition chars (s : string) : list string :=
  map (fun c => String c EmptyString) (list_ascii_of_string s).

(** [v[i]] for an integer [i]. *)
Definition getitem_int (v : value) (i : Z) : result value :=
  match v with
  | VDict _ => Raise (KeyError (VInt i))
  | VList l => match nth_py l i with
               | Some x => Ok x
               | None => Raise IndexError
               end
  | VStr s => match nth_py (chars s) i with
              | Some c => Ok (VStr c)
              | None => Raise IndexError
              end
  | _ => Raise TypeError
  end.

(** [v[k] = x] for a string [k]. *)
Definition setitem_str (v : value) (k : string) (x : value) : result value :=
  match v with
  | VDict d => Ok (VDict (dict_set k x d))
  | _ => Raise TypeError
  end.

(** The items a [for] loop over [v] visits. *)
Definition py_iter (v : value) : result (list value) :=
  match v with
  | VList l => Ok l
  | VDict d => Ok (map (fun kv => VStr (fst kv)) d)
  | VStr s => Ok (map VStr (chars s))
  | _ => Raise TypeError
  end.

(* ===================================================================== *)
(** ** [datetime.strptime] and [datetime.strftime] *)
(* ===================================================================== *)

(** The directives of the client's two formats. *)
Inductive directive := dir_Y | dir_m | dir_d | dir_H | dir_M | dir_S.

Definition directive_of (c : ascii) : option directive :=
  if Ascii.eqb c "Y" then Some dir_Y
  else if Ascii.eqb c "m" then Some dir_m
  else if Ascii.eqb c "d" then Some dir_d
  else if Ascii.eqb c "H" then Some dir_H
  else if Ascii.eqb c "M" then Some dir_M
  else if Ascii.eqb c "S" then Some dir_S
  else None.

Definition code (c : ascii) : Z := Z.of_N (N_of_ascii c).

(** [\s] on code points below 256 ([str.isspace]). *)
Definition is_space (c : ascii) : bool :=
  let n := code c in
  ((9 <=? n) && (n <=? 13)) || ((28 <=? n) && (n <=? 32)) ||
  (n =? 133) || (n =? 160).

(** A compiled format: [_strptime.TimeRE.pattern] turns every run of
    whitespace of the format into [\s+] and every directive into its
    regular expression; the other characters stand for themselves (the two
    formats have no letter outside a directive, so that the IGNORECASE flag
    of the pattern changes nothing). A directive other than the six is
    outside the embedding: [compile] gives [None]. *)
Inductive fmt_item :=
| FDir (d : directive)
| FLit (c : ascii)
| FSpace.

Fixpoint compile (format : string) : option (list fmt_item) :=
  match format with
  | EmptyString => Some []
  | String c r =>
      if Ascii.eqb c "%" then
        match r with
        | EmptyString => None
        | String d r' =>
            match directive_of d, compile r' with
            | Some x, Some f => Some (FDir x :: f)
            | _, _ => None
            end
        end
      else if is_space c then
        match compile r with
        | Some (FSpace :: f) => Some (FSpace :: f)
        | Some f => Some (FSpace :: f)
        | None => None
        end
      else
        match compile r with
        | Some f => Some (FLit c :: f)
        | None => None
        end
  end.

(* --------------------------------------------------------------------- *)
(** *** Backtracking matchers

    [re.match] explores alternatives left to right and backtracks; a matcher
    returns every way to match a prefix, in that order of preference, each
    with what it captured and the text left. The first entry is the match
    [re.match] reports. *)

Definition matcher (A : Type) := string -> list (A * string).

Definition m_ret {A} (a : A) : matcher A := fun s => [(a, s)].

Definition m_bind {A B} (p : matcher A) (k : A -> matcher B) : matcher B :=
  fun s => flat_map (fun ar => k (fst ar) (snd ar)) (p s).

Definition m_alt {A} (p q : matcher A) : matcher A :=
  fun s => p s ++ q s.

(** One character whose digit value lies in [lo..hi]: [[lo-hi]]. *)
Definition m_range (lo hi : Z) : matcher Z :=
  fun s =>
    match s with
    | String c r =>
        let n := code c - 48 in
        if (lo <=? n) && (n <=? hi) then [(n, r)] else []
    | EmptyString => []
    end.

(** [\d] *)
Definition m_digit : matcher Z := m_range 0 9.

Definition m_lit (c : ascii) : matcher unit :=
  fun s =>
    match s with
    | String c' r => if Ascii.eqb c c' then [(tt, r)] else []
    | EmptyString => []
    end.

(** [\s+], greedy: the longest run first. *)
Fixpoint m_spaces (s : string) : list (unit * string) :=
  match s with
  | String c r => if is_space c then m_spaces r ++ [(tt, r)] else []
  | EmptyString => []
  end.

Definition m_two (p q : matcher Z) : matcher Z :=
  m_bind p (fun a => m_bind q (fun b => m_ret (10 * a + b))).

(** The regular expression of each directive, and [int()] of its group:
    - [%Y]: [\d\d\d\d]
    - [%m]: [1[0-2]|0[1-9]|[1-9]]
    - [%d]: [3[0-1]|[1-2]\d|0[1-9]|[1-9]| [1-9]]
    - [%H]: [2[0-3]|[0-1]\d|\d]
    - [%M]: [[0-5]\d|\d]
    - [%S]: [6[0-1]|[0-5]\d|\d] *)
Definition directive_re (d : directive) : matcher Z :=
  match d with
  | dir_Y =>
      m_bind m_digit (fun a => m_bind m_digit (fun b =>
      m_bind m_digit (fun c => m_bind m_digit (fun e =>
      m_ret (1000 * a + 100 * b + 10 * c + e)))))
  | dir_m =>
      m_alt (m_two (m_range 1 1) (m_range 0 2))
     (m_alt (m_two (m_range 0 0) (m_range 1 9))
            (m_range 1 9))
  | dir_d =>
      m_alt (m_two (m_range 3 3) (m_range 0 1))
     (m_alt (m_two (m_range 1 2) m_digit)
     (m_alt (m_two (m_range 0 0) (m_range 1 9))
     (m_alt (m_range 1 9)
            (m_bind (m_lit " ") (fun _ => m_range 1 9)))))
  | dir_H =>
      m_alt (m_two (m_range 2 2) (m_range 0 3))
     (m_alt (m_two (m_range 0 1) m_digit)
            m_digit)
  | dir_M =>
      m_alt (m_two (m_range 0 5) m_digit) m_digit
  | dir_S =>
      m_alt (m_two (m_range 6 6) (m_range 0 1))
     (m_alt (m_two (m_range 0 5) m_digit)
            m_digit)
  end.

Definition set_field (d : directive) (v : Z) (t : datetime) : datetime :=
  match d with
  | dir_Y => mk_datetime v (month t) (day t) (hour t) (minute t) (second t)
               (microsecond t) (tzinfo t)
  | dir_m => mk_datetime (year t) v (day t) (hour t) (minute t) (second t)
               (microsecond t) (tzinfo t)
  | dir_d => mk_datetime (year t) (month t) v (hour t) (minute t) (second t)
               (microsecond t) (tzinfo t)
  | dir_H => mk_datetime (year t) (month t) (day t) v (minute t) (second t)
               (microsecond t) (tzinfo t)
  | dir_M => mk_datetime (year t) (month t) (day t) (hour t) v (second t)
               (microsecond t) (tzinfo t)
  | dir_S => mk_datetime (year t) (month t) (day t) (hour t) (minute t) v
               (microsecond t) (tzinfo t)
  end.

(** The whole pattern, threading the fields found so far. *)
Fixpoint regex_match (f : list fmt_item) (acc : datetime) : matcher datetime :=
  match f with
  | [] => m_ret acc
  | FDir d :: f' =>
      m_bind (directive_re d) (fun v => regex_match f' (set_field d v acc))
  | FLit c :: f' => m_bind (m_lit c) (fun _ => regex_match f' acc)
  | FSpace :: f' => m_bind m_spaces (fun _ => regex_match f' acc)
  end.

(** What [_strptime] starts from: 1900-01-01 00:00:00, naive. *)
Definition strptime_defaults : datetime :=
  mk_datetime 1900 1 1 0 0 0 0 None.

(** [datetime.strptime(data_string, format)]: a non-[str] argument is a
    [TypeError]; no match, text left over after the match, and a date or time
    the [datetime] constructor refuses are each a [ValueError]. *)
Definition strptime (data_string : value) (format : string) : result datetime :=
  match data_string with
  | VStr s =>
      match compile format with
      | None => Raise (ValueError "bad directive in format")
      | Some f =>
          match regex_match f strptime_defaults s with
          | [] => Raise (ValueError "time data does not match format")
          | (t, rest) :: _ =>
              if String.eqb rest "" then
                if valid_datetime t then Ok t
                else Raise (ValueError "value out of range")
              else Raise (ValueError "unconverted data remains")
          end
      end
  | _ => Raise TypeError
  end.

(* --------------------------------------------------------------------- *)
(** *** strftime *)

Definition digit_char (n : Z) : ascii := ascii_of_N (Z.to_N (48 + n)).

Definition zfill2 (n : Z) (r : string) : string :=
  String (digit_char (n / 10 mod 10)) (String (digit_char (n mod 10)) r).

(** [%Y] is left to the C library: some pad a year below 1000 with zeros to
    four digits ([pads = true]), glibc prints it as it is. *)
Definition render_year (pads : bool) (y : Z) (r : string) : string :=
  let d0 := digit_char (y mod 10) in
  let d1 := digit_char (y / 10 mod 10) in
  let d2 := digit_char (y / 100 mod 10) in
  let d3 := digit_char (y / 1000 mod 10) in
  if pads || (1000 <=? y) then String d3 (String d2 (String d1 (String d0 r)))
  else if 100 <=? y then String d2 (String d1 (String d0 r))
  else if 10 <=? y then String d1 (String d0 r)
  else String d0 r.

Definition render (pads : bool) (d : directive) (t : datetime) (r : string)
  : string :=
  match d with
  | dir_Y => render_year pads (year t) r
  | dir_m => zfill2 (month t) r
  | dir_d => zfill2 (day t) r
  | dir_H => zfill2 (hour t) r
  | dir_M => zfill2 (minute t) r
  | dir_S => zfill2 (second t) r
  end.

(** [datetime.strftime(t, format)]; neither the microsecond nor the time
    zone of [t] shows in the six directives. *)
Fixpoint strftime (pads : bool) (t : datetime) (format : string) : string :=
  match format with
  | EmptyString => EmptyString
  | String c r =>
      if Ascii.eqb c "%" then
        match r with
        | EmptyString => String c EmptyString
        | String d r' =>
            match directive_of d with
            | Some x => render pads x t (strftime pads t r')
            | None => String c (String d (strftime pads t r'))
            end
        end
      else String c (strftime pads t r)
  end.

(* ===================================================================== *)
(** ** The network *)
(* ===================================================================== *)

(** The arguments of one [requests.post] call. *)
Record request := mk_request {
  url : string;
  timeout : Z;
  headers : list (string * string);
  json : value
}.

(** What the client runs on: the service behind [requests.post], which may
    answer by the requests seen so far and may raise instead of answering,
    and the C library's treatment of [%Y]. *)
Record platform := mk_platform {
  post : list request -> request -> result response;
  libc_pads_year : bool
}.

(** A method of the client: it reads the platform and extends the log of
    requests issued. *)
Definition Net (A : Type) : Type :=
  platform -> list request -> result A * list request.

Definition ret {A} (a : A) : Net A := fun _ log => (Ok a, log).

Definition lift {A} (r : result A) : Net A := fun _ log => (r, log).

Definition bind {A B} (m : Net A) (k : A -> Net B) : Net B :=
  fun pf log =>
    match m pf log with
    | (Ok a, log') => k a pf log'
    | (Raise e, log') => (Raise e, log')
    end.

Declare Scope net_scope.
Delimit Scope net_scope with net.
Notation "x <- m ;; k" := (bind m (fun x => k))
  (at level 61, m at next level, right associativity) : net_scope.

Definition requests_post (req : request) : Net response :=
  fun pf log => (post pf log req, log ++ [req]).

Definition pads_year : Net bool :=
  fun pf log => (Ok (libc_pads_year pf), log).

(** [response.json()] *)
Definition response_json (r : response) : result value :=
  match content r with
  | Some v => Ok v
  | None => Raise JSONDecodeError
  end.

(** [response.raise_for_status()]: an [HTTPError] for 4xx and 5xx only. *)
Definition raise_for_status (r : response) : result unit :=
  if ((400 <=? status_code r) && (status_code r <? 500)) ||
     ((500 <=? status_code r) && (status_code r <? 600))
  then Raise (HTTPError_for_status r)
  else Ok tt.

(* ===================================================================== *)
(** ** The data classes *)
(* ===================================================================== *)

(** The eight named tuples, field names as in the source (the second field
    of [AuroraOutlook] is named [start_time] there). A field holds any Python
    value. An entry of [activity] is the one-entry dictionary
    [{date: forecast}] of the source, kept as the pair of its key and value. *)
Inductive record :=
| AuroraOutlook
    (issue_time start_time end_date cause k_aus lat_band comments : value)
| AuroraWatch
    (issue_time start_date end_date cause k_aus lat_band comments : value)
| AuroraAlert (start_time valid_until k_aus lat_band description : value)
| MagAlert (start_time valid_until g_scale description : value)
| MagWarning (issue_time start_date end_date cause : value)
    (activity : list (datetime * value)) (comments : value)
| AIndex (valid_time index : value)
| KIndex (valid_time analysis_time index : value)
| DstIndex (valid_time index : value).

(* ===================================================================== *)
(** ** class SpaceWeather *)
(* ===================================================================== *)

Record SpaceWeather := mk_SpaceWeather {
  _headers : list (string * string);
  api_key : value;
  _time_format : string;
  _time_format_with_minutes : string
}.

Definition api_url : string := "https://sws-data.sws.bom.gov.au/api/v1/".

(** The probe of [_verify_api_key], lines 68-77. *)
Definition probe_request (self_headers : list (string * string))
  (api_key : value) : request :=
  let request_body :=
    VDict [("api_key", api_key);
           ("options", VDict [("location", VStr "Australian region")])] in
  mk_request (api_url ++ "get-k-index") 15 self_headers request_body.

Definition _verify_api_key (self_headers : list (string * string))
  (api_key : value) : Net value :=
  (response <- requests_post (probe_request self_headers api_key) ;;
   if status_code response =? 403 then
     lift (Raise (ValueError "HTTP Error 403 - please pass a valid API key."))
   else
     _ <- lift (raise_for_status response) ;;
     ret api_key)%net.

Definition default_headers : list (string * string) :=
  [("Content-Type", "application/json; charset=UTF-8")].

Definition __init__ (api_key : value) : Net SpaceWeather :=
  (let headers := default_headers in
   key <- _verify_api_key headers api_key ;;
   ret (mk_SpaceWeather headers key "%Y-%m-%d" "%Y-%m-%d %H:%M:%S"))%net.

(* --------------------------------------------------------------------- *)
(** *** Response mapping: the loop bodies *)

Section Mapper.
Variable self : SpaceWeather.

(** The inner [try] of [_get_aurora] and [get_mag_warning]: the format with
    minutes, and on [ValueError] the date-only format. A missing key leaves
    as [KeyError]. *)
Definition parse_time_period (elem : value) (time_period : string)
  : result value :=
  try_except
    (v <- getitem_str elem time_period ;;
     time <- strptime v (_time_format_with_minutes self) ;;
     Ok (VDatetime time))%result
    is_ValueError
    (v <- getitem_str elem time_period ;;
     time <- strptime v (_time_format self) ;;
     Ok (VDatetime time))%result.

Definition aurora_time_periods_init : list (string * value) :=
  [("issue_time", VStr ""); ("start_date", VStr ""); ("end_date", VStr "");
   ("start_time", VStr ""); ("valid_until", VStr "")].

(** [_get_aurora], lines 111-131: [except KeyError: pass]. *)
Definition aurora_time_periods (aurora : value)
  : result (list (string * value)) :=
  foldM
    (fun time_periods time_period =>
       try_except
         (time <- parse_time_period aurora time_period ;;
          Ok (dict_set time_period time time_periods))%result
         is_KeyError
         (Ok time_periods))
    (map fst aurora_time_periods_init)
    aurora_time_periods_init.

(** [_get_aurora], lines 110-164: what one element appends to [auroras]. *)
Definition aurora_item (aurora_type : string) (aurora : value)
  : result (list record) :=
  (time_periods <- aurora_time_periods aurora ;;
   if String.eqb aurora_type "outlook" then
     cause <- getitem_str aurora "cause" ;;
     k_aus <- getitem_str aurora "k_aus" ;;
     lat_band <- getitem_str aurora "lat_band" ;;
     comments <- getitem_str aurora "comments" ;;
     Ok [AuroraOutlook
           (dict_get_default "issue_time" time_periods)
           (dict_get_default "start_date" time_periods)
           (dict_get_default "end_date" time_periods)
           cause k_aus lat_band comments]
   else if String.eqb aurora_type "watch" then
     cause <- getitem_str aurora "cause" ;;
     k_aus <- getitem_str aurora "k_aus" ;;
     lat_band <- getitem_str aurora "lat_band" ;;
     comments <- getitem_str aurora "comments" ;;
     Ok [AuroraWatch
           (dict_get_default "issue_time" time_periods)
           (dict_get_default "start_date" time_periods)
           (dict_get_default "end_date" time_periods)
           cause k_aus lat_band comments]
   else if String.eqb aurora_type "alert" then
     k_aus <- getitem_str aurora "k_aus" ;;
     lat_band <- getitem_str aurora "lat_band" ;;
     description <- getitem_str aurora "description" ;;
     Ok [AuroraAlert
           (dict_get_default "start_time" time_periods)
           (dict_get_default "valid_until" time_periods)
           k_aus lat_band description]
   else Ok [])%result.

(** [get_mag_alert], lines 227-234: the element itself is updated. *)
Definition mag_alert_times (mag_alert : value) : result value :=
  foldM
    (fun mag_alert time_period =>
       try_except
         (v <- getitem_str mag_alert time_period ;;
          time <- strptime v (_time_format_with_minutes self) ;;
          setitem_str mag_alert time_period (VDatetime time))%result
         is_KeyError
         (setitem_str mag_alert time_period VNone))
    ["start_time"; "valid_until"]
    mag_alert.

(** [get_mag_alert], lines 225-241. *)
Definition mag_alert_item (mag_alert : value) : result record :=
  (mag_alert <- mag_alert_times mag_alert ;;
   start_time <- getitem_str mag_alert "start_time" ;;
   valid_until <- getitem_str mag_alert "valid_until" ;;
   g_scale <- getitem_str mag_alert "g_scale" ;;
   description <- getitem_str mag_alert "description" ;;
   Ok (MagAlert start_time valid_until g_scale description))%result.

Definition mag_warning_time_periods_init : list (string * value) :=
  [("issue_time", VStr ""); ("start_date", VStr ""); ("end_date", VStr "")].

(** [get_mag_warning], lines 267-285: [except KeyError] stores [None]. *)
Definition mag_warning_time_periods (mag_warning : value)
  : result (list (string * value)) :=
  foldM
    (fun time_periods time_period =>
       try_except
         (time <- parse_time_period mag_warning time_period ;;
          Ok (dict_set time_period time time_periods))%result
         is_KeyError
         (Ok (dict_set time_period VNone time_periods)))
    (map fst mag_warning_time_periods_init)
    mag_warning_time_periods_init.

(** [get_mag_warning], lines 289-293: one entry of the comprehension, the
    key before the value. *)
Definition day_entry (day_period : value) : result (datetime * value) :=
  (date <- getitem_str day_period "date" ;;
   key <- strptime date (_time_format self) ;;
   forecast <- getitem_str day_period "forecast" ;;
   Ok (key, forecast))%result.

(** [get_mag_warning], lines 288-295. *)
Definition mag_warning_days (mag_warning : value)
  : result (list (datetime * value)) :=
  (activity <- getitem_str mag_warning "activity" ;;
   day_periods <- py_iter activity ;;
   mapM day_entry day_periods)%result.

(** [get_mag_warning], lines 265-305. *)
Definition mag_warning_item (mag_warning : value) : result record :=
  (time_periods <- mag_warning_time_periods mag_warning ;;
   days <- mag_warning_days mag_warning ;;
   cause <- getitem_str mag_warning "cause" ;;
   comments <- getitem_str mag_warning "comments" ;;
   Ok (MagWarning
         (dict_get_default "issue_time" time_periods)
         (dict_get_default "start_date" time_periods)
         (dict_get_default "end_date" time_periods)
         cause days comments))%result.

(** [_get_index], lines 390-417. *)
Definition index_item (index_type : string) (index_data : value)
  : result record :=
  (if String.eqb index_type "k-index" then
     v <- getitem_str index_data "valid_time" ;;
     valid_time <- strptime v (_time_format_with_minutes self) ;;
     a <- getitem_str index_data "analysis_time" ;;
     analysis_time <- strptime a (_time_format_with_minutes self) ;;
     index <- getitem_str index_data "index" ;;
     Ok (KIndex (VDatetime valid_time) (VDatetime analysis_time) index)
   else if String.eqb index_type "a-index" then
     v <- getitem_str index_data "valid_time" ;;
     valid_time <- strptime v (_time_format_with_minutes self) ;;
     index <- getitem_str index_data "index" ;;
     Ok (AIndex (VDatetime valid_time) index)
   else
     v <- getitem_str index_data "valid_time" ;;
     valid_time <- strptime v (_time_format_with_minutes self) ;;
     index <- getitem_str index_data "index" ;;
     Ok (DstIndex (VDatetime valid_time) index))%result.

(* --------------------------------------------------------------------- *)
(** *** Response mapping: after the status check *)

(** [_get_aurora], lines 105-166. *)
Definition aurora_response (aurora_type : string) (response : response)
  : result (list record) :=
  (if negb (status_code response =? 200) then
     body <- response_json response ;;
     Raise (HTTPError body)
   else
     j <- response_json response ;;
     data <- getitem_str j "data" ;;
     if py_truthy data then
       items <- py_iter data ;;
       auroras <- mapM (aurora_item aurora_type) items ;;
       Ok (List.concat auroras)
     else Ok [])%result.

(** [get_mag_alert], lines 221-243. *)
Definition mag_alert_response (response : response) : result (list record) :=
  (if negb (status_code response =? 200) then
     body <- response_json response ;;
     Raise (HTTPError body)
   else
     j <- response_json response ;;
     data <- getitem_str j "data" ;;
     if py_truthy data then
       items <- py_iter data ;;
       mapM mag_alert_item items
     else Ok [])%result.

(** [get_mag_warning], lines 261-307. *)
Definition mag_warning_response (response : response)
  : result (list record) :=
  (if negb (status_code response =? 200) then
     body <- response_json response ;;
     Raise (HTTPError body)
   else
     j <- response_json response ;;
     data <- getitem_str j "data" ;;
     if py_truthy data then
       items <- py_iter data ;;
       mapM mag_warning_item items
     else Ok [])%result.

(** [_get_index], lines 380-419; [response.json()] is decoded afresh at
    each use. *)
Definition index_response (index_type : string) (response : response)
  : result (list record) :=
  (if negb (status_code response =? 200) then
     body <- response_json response ;;
     Raise (HTTPError body)
   else
     j <- response_json response ;;
     d <- getitem_str j "data" ;;
     if py_truthy d then
       data <-
         (if String.eqb index_type "a-index" ||
             String.eqb index_type "dst-index"
          then
            j <- response_json response ;;
            d <- getitem_str j "data" ;;
            getitem_int d 0
          else
            j <- response_json response ;;
            getitem_str j "data") ;;
       items <- py_iter data ;;
       mapM (index_item index_type) items
     else Ok [])%result.

(* --------------------------------------------------------------------- *)
(** *** The methods *)

Definition aurora_request (aurora_type : string) : request :=
  mk_request (api_url ++ "get-aurora-" ++ aurora_type) 15 (_headers self)
    (VDict [("api_key", api_key self)]).

Definition _get_aurora (aurora_type : string) : Net (list record) :=
  (response <- requests_post (aurora_request aurora_type) ;;
   lift (aurora_response aurora_type response))%net.

Definition get_aurora_outlook : Net (list record) := _get_aurora "outlook".
Definition get_aurora_watch : Net (list record) := _get_aurora "watch".
Definition get_aurora_alert : Net (list record) := _get_aurora "alert".

Definition mag_alert_request : request :=
  mk_request (api_url ++ "get-mag-alert") 15 (_headers self)
    (VDict [("api_key", api_key self)]).

Definition get_mag_alert : Net (list record) :=
  (response <- requests_post mag_alert_request ;;
   lift (mag_alert_response response))%net.

Definition mag_warning_request : request :=
  mk_request (api_url ++ "get-mag-warning") 15 (_headers self)
    (VDict [("api_key", api_key self)]).

Definition get_mag_warning : Net (list record) :=
  (response <- requests_post mag_warning_request ;;
   lift (mag_warning_response response))%net.

(** The message of lines 350-353 and 361-364 (its line break and
    indentation as one space). *)
Definition time_range_message : string :=
  "Please provide a string in the format YYYY-MM-DD HH:mm:ss or a datetime object.".

(** [start != ""] *)
Definition ne_empty_str (v : value) : bool :=
  match v with
  | VStr s => negb (String.eqb s "")
  | _ => true
  end.

(** [_get_index], lines 343-353 (and 354-364 for [end]): what the argument
    becomes, or the error. *)
Definition check_time_arg (arg : value) : Net value :=
  match arg with
  | VDatetime t =>
      (pads <- pads_year ;;
       ret (VStr (strftime pads t (_time_format_with_minutes self))))%net
  | _ =>
      if ne_empty_str arg then
        lift (try_except
                (_ <- strptime arg (_time_format_with_minutes self) ;;
                 Ok arg)%result
                is_ValueError
                (Raise (ValueError time_range_message)))
      else ret arg
  end.

(** [_get_index], lines 367-379, with [start] and [end] as sent. *)
Definition index_request (index_type : string) (start end_ location : value)
  : request :=
  mk_request (api_url ++ "get-" ++ index_type) 15 (_headers self)
    (VDict [("api_key", api_key self);
            ("options", VDict [("location", location);
                               ("start", start);
                               ("end", end_)])]).

Definition _get_index (index_type : string) (start end_ location : value)
  : Net (list record) :=
  (start <- check_time_arg start ;;
   end_ <- check_time_arg end_ ;;
   response <- requests_post (index_request index_type start end_ location) ;;
   lift (index_response index_type response))%net.

Definition get_a_index (start end_ : value) : Net (list record) :=
  _get_index "a-index" start end_ (VStr "Australian region").

Definition get_k_index (start end_ location : value) : Net (list record) :=
  match location with
  | VNone => _get_index "k-index" start end_ (VStr "Australian region")
  | _ => _get_index "k-index" start end_ location
  end.

Definition get_dst_index (start end_ : value) : Net (list record) :=
  _get_index "dst-index" start end_ (VStr "Australian region").

End Mapper.

(* ===================================================================== *)
(** ** Vocabulary of the statements *)
(* ===================================================================== *)

(** A client as [__init__] leaves it: the two formats are the constants of
    lines 46-47. *)
Definition constructed (self : SpaceWeather) : Prop :=
  _time_format self = "%Y-%m-%d" /\
  _time_format_with_minutes self = "%Y-%m-%d %H:%M:%S".

(** The eight public operations with their arguments. *)
Inductive operation :=
| OpAuroraOutlook
| OpAuroraWatch
| OpAuroraAlert
| OpMagAlert
| OpMagWarning
| OpAIndex (start end_ : value)
| OpKIndex (start end_ location : value)
| OpDstIndex (start end_ : value).

Definition call (self : SpaceWeather) (op : operation) : Net (list record) :=
  match op with
  | OpAuroraOutlook => get_aurora_outlook self
  | OpAuroraWatch => get_aurora_watch self
  | OpAuroraAlert => get_aurora_alert self
  | OpMagAlert => get_mag_alert self
  | OpMagWarning => get_mag_warning self
  | OpAIndex start end_ => get_a_index self start end_
  | OpKIndex start end_ location => get_k_index self start end_ location
  | OpDstIndex start end_ => get_dst_index self start end_
  end.

(** A [start] or [end] that passes lines 343-364: a [datetime], the empty
    string, or a string the format with minutes parses. *)
Definition time_arg_ok (self : SpaceWeather) (arg : value) : bool :=
  match arg with
  | VDatetime _ => true
  | VStr s =>
      String.eqb s "" ||
      match strptime arg (_time_format_with_minutes self) with
      | Ok _ => true
      | Raise _ => false
      end
  | _ => false
  end.

Definition args_ok (self : SpaceWeather) (op : operation) : bool :=
  match op with
  | OpAIndex start end_ | OpDstIndex start end_ | OpKIndex start end_ _ =>
      time_arg_ok self start && time_arg_ok self end_
  | _ => true
  end.

(** What a passing [start] or [end] is sent as. *)
Definition sent (self : SpaceWeather) (pf : platform) (arg : value) : value :=
  match arg with
  | VDatetime t =>
      VStr (strftime (libc_pads_year pf) t (_time_format_with_minutes self))
  | _ => arg
  end.

Definition k_location (location : value) : value :=
  match location with
  | VNone => VStr "Australian region"
  | _ => location
  end.

(** The one request an operation issues. *)
Definition request_of (self : SpaceWeather) (pf : platform) (op : operation)
  : request :=
  match op with
  | OpAuroraOutlook => aurora_request self "outlook"
  | OpAuroraWatch => aurora_request self "watch"
  | OpAuroraAlert => aurora_request self "alert"
  | OpMagAlert => mag_alert_request self
  | OpMagWarning => mag_warning_request self
  | OpAIndex start end_ =>
      index_request self "a-index" (sent self pf start) (sent self pf end_)
        (VStr "Australian region")
  | OpKIndex start end_ location =>
      index_request self "k-index" (sent self pf start) (sent self pf end_)
        (k_location location)
  | OpDstIndex start end_ =>
      index_request self "dst-index" (sent self pf start) (sent self pf end_)
        (VStr "Australian region")
  end.

(** What an operation makes of the response to that request. *)
Definition respond (self : SpaceWeather) (op : operation) (r : response)
  : result (list record) :=
  match op with
  | OpAuroraOutlook => aurora_response self "outlook" r
  | OpAuroraWatch => aurora_response self "watch" r
  | OpAuroraAlert => aurora_response self "alert" r
  | OpMagAlert => mag_alert_response self r
  | OpMagWarning => mag_warning_response self r
  | OpAIndex _ _ => index_response self "a-index" r
  | OpKIndex _ _ _ => index_response self "k-index" r
  | OpDstIndex _ _ => index_response self "dst-index" r
  end.

(** The loop body of an operation: the records one element contributes. *)
Definition item_of (self : SpaceWeather) (op : operation) (elem : value)
  : result (list record) :=
  match op with
  | OpAuroraOutlook => aurora_item self "outlook" elem
  | OpAuroraWatch => aurora_item self "watch" elem
  | OpAuroraAlert => aurora_item self "alert" elem
  | OpMagAlert => rbind (mag_alert_item self elem) (fun r => Ok [r])
  | OpMagWarning => rbind (mag_warning_item self elem) (fun r => Ok [r])
  | OpAIndex _ _ => rbind (index_item self "a-index" elem) (fun r => Ok [r])
  | OpKIndex _ _ _ => rbind (index_item self "k-index" elem) (fun r => Ok [r])
  | OpDstIndex _ _ =>
      rbind (index_item self "dst-index" elem) (fun r => Ok [r])
  end.

(** The service nests the elements of these one level deeper. *)
Definition nested (op : operation) : bool :=
  match op with
  | OpAIndex _ _ | OpDstIndex _ _ => true
  | _ => false
  end.

(** The timestamp fields of a record, each under the response key it is
    read from. *)
Definition record_times (r : record) : list (string * value) :=
  match r with
  | AuroraOutlook issue_time start_time end_date _ _ _ _ =>
      [("issue_time", issue_time); ("start_date", start_time);
       ("end_date", end_date)]
  | AuroraWatch issue_time start_date end_date _ _ _ _ =>
      [("issue_time", issue_time); ("start_date", start_date);
       ("end_date", end_date)]
  | AuroraAlert start_time valid_until _ _ _ =>
      [("start_time", start_time); ("valid_until", valid_until)]
  | MagAlert start_time valid_until _ _ =>
      [("start_time", start_time); ("valid_until", valid_until)]
  | MagWarning issue_time start_date end_date _ _ _ =>
      [("issue_time", issue_time); ("start_date", start_date);
       ("end_date", end_date)]
  | AIndex valid_time _ => [("valid_time", valid_time)]
  | KIndex valid_time analysis_time _ =>
      [("valid_time", valid_time); ("analysis_time", analysis_time)]
  | DstIndex valid_time _ => [("valid_time", valid_time)]
  end.

(** The timestamp keys an operation reads from an element. *)
Definition time_keys (op : operation) : list string :=
  match op with
  | OpAuroraOutlook | OpAuroraWatch | OpAuroraAlert =>
      ["issue_time"; "start_date"; "end_date"; "start_time"; "valid_until"]
  | OpMagAlert => ["start_time"; "valid_until"]
  | OpMagWarning => ["issue_time"; "start_date"; "end_date"]
  | OpKIndex _ _ _ => ["valid_time"; "analysis_time"]
  | OpAIndex _ _ | OpDstIndex _ _ => ["valid_time"]
  end.

(** The operations whose loop falls back to the date-only format. *)
Definition two_formats (op : operation) : bool :=
  match op with
  | OpAuroraOutlook | OpAuroraWatch | OpAuroraAlert | OpMagWarning => true
  | _ => false
  end.

(** What stands in a record for a timestamp the element does not have:
    the initial [""] of [time_periods] in [_get_aurora], [None] in
    [get_mag_alert] and [get_mag_warning]. The index operations have none. *)
Definition absent_marker (op : operation) : option value :=
  match op with
  | OpAuroraOutlook | OpAuroraWatch | OpAuroraAlert => Some (VStr "")
  | OpMagAlert | OpMagWarning => Some VNone
  | _ => None
  end.

Definition midnight (t : datetime) : Prop :=
  hour t = 0 /\ minute t = 0 /\ second t = 0 /\ microsecond t = 0.

(** A success status in the words of HTTP: the class 2xx. *)
Definition spec_success_status (status : Z) : bool :=
  (200 <=? status) && (status <? 300).

(** The spec's words for a time-range string, read to the letter:
    four digits, [-], two digits, [-], two digits, one space, and
    two digits three times with [:] between. *)
Definition is_digit (c : ascii) : bool := (48 <=? code c) && (code c <=? 57).

Definition spec_exact_format (s : string) : bool :=
  match list_ascii_of_string s with
  | [y1; y2; y3; y4; s1; m1; m2; s2; d1; d2; sp; h1; h2; c1; n1; n2; c2;
     e1; e2] =>
      forallb is_digit [y1; y2; y3; y4; m1; m2; d1; d2; h1; h2; n1; n2; e1; e2]
      && Ascii.eqb s1 "-" && Ascii.eqb s2 "-" && Ascii.eqb sp " "
      && Ascii.eqb c1 ":" && Ascii.eqb c2 ":"
  | _ => false
  end.

(** A mock service that answers an index request with one reading whose
    [valid_time] is the [start] it was sent. *)
Definition echo_start (req : request) : result response :=
  (options <- getitem_str (json req) "options" ;;
   start <- getitem_str options "start" ;;
   Ok (mk_response 200
         (Some (VDict [("data",
            VList [VList [VDict [("index", VInt 0);
                                 ("valid_time", start)]]])]))))%result.


(** The time range of an index operation. *)
Definition time_range (op : operation) : option (value * value) :=
  match op with
  | OpAIndex start end_ | OpDstIndex start end_ | OpKIndex start end_ _ =>
      Some (start, end_)
  | _ => None
  end.

(** [str] or [datetime], the documented types of [start] and [end]. *)
Definition is_time_arg (v : value) : bool :=
  match v with
  | VStr _ | VDatetime _ => true
  | _ => false
  end.

(* --------------------------------------------------------------------- *)
(** *** Fixtures of the examples *)

(** The client of the test-suite's fixture. *)
Definition test_client : SpaceWeather :=
  mk_SpaceWeather default_headers (VStr "valid_api_key")
    "%Y-%m-%d" "%Y-%m-%d %H:%M:%S".

(** A service that gives the same answer to every request ([requests_mock]),
    on glibc. *)
Definition mock (r : response) : platform :=
  mk_platform (fun _ _ => Ok r) false.

(** A 200 answer whose body is [{"data": data}]. *)
Definition data_response (data : value) : response :=
  mk_response 200 (Some (VDict [("data", data)])).

Definition at_time (y m d h mi s : Z) : datetime :=
  mk_datetime y m d h mi s 0 None.

(** Example A2 of the specification. *)
Definition example_a2 : value :=
  VList [VList [VDict [("index", VInt 5);
                       ("valid_time", VStr "2021-12-04 00:00:00")];
                VDict [("index", VInt 6);
                       ("valid_time", VStr "2021-12-05 00:00:00")]]].

(* --------------------------------------------------------------------- *)
(** *** The timestamp policy of an operation *)

(** How an operation parses a timestamp string: the format with minutes
    and, for the operations of [two_formats] only, the date-only format
    when the first raises. *)
Definition field_policy (op : operation) (s : string) : result datetime :=
  if two_formats op then
    match strptime (VStr s) "%Y-%m-%d %H:%M:%S" with
    | Ok t => Ok t
    | Raise _ => strptime (VStr s) "%Y-%m-%d"
    end
  else strptime (VStr s) "%Y-%m-%d %H:%M:%S".

(** What an operation makes of the timestamp key [k] of the element [d]:
    the marker (or [KeyError]) when the key is absent, the parsed time when
    it is a string, [TypeError] otherwise. *)
Definition field_value (op : operation) (d : list (string * value))
  (k : string) : result value :=
  match dict_get k d with
  | None =>
      match absent_marker op with
      | Some m => Ok m
      | None => Raise (KeyError (VStr k))
      end
  | Some (VStr s) => rbind (field_policy op s) (fun t => Ok (VDatetime t))
  | Some _ => Raise TypeError
  end.

(** The record an operation builds once the timestamps [vs] of the element
    [d] are parsed: the pass-through fields are read in the order of the
    constructor's arguments. *)
Definition build (self : SpaceWeather) (op : operation)
  (d : list (string * value)) (vs : list value) : result (list record) :=
  (match op, vs with
   | OpAuroraOutlook, [issue_time; start_date; end_date; _; _] =>
       cause <- getitem_str (VDict d) "cause" ;;
       k_aus <- getitem_str (VDict d) "k_aus" ;;
       lat_band <- getitem_str (VDict d) "lat_band" ;;
       comments <- getitem_str (VDict d) "comments" ;;
       Ok [AuroraOutlook issue_time start_date end_date
             cause k_aus lat_band comments]
   | OpAuroraWatch, [issue_time; start_date; end_date; _; _] =>
       cause <- getitem_str (VDict d) "cause" ;;
       k_aus <- getitem_str (VDict d) "k_aus" ;;
       lat_band <- getitem_str (VDict d) "lat_band" ;;
       comments <- getitem_str (VDict d) "comments" ;;
       Ok [AuroraWatch issue_time start_date end_date
             cause k_aus lat_band comments]
   | OpAuroraAlert, [_; _; _; start_time; valid_until] =>
       k_aus <- getitem_str (VDict d) "k_aus" ;;
       lat_band <- getitem_str (VDict d) "lat_band" ;;
       description <- getitem_str (VDict d) "description" ;;
       Ok [AuroraAlert start_time valid_until k_aus lat_band description]
   | OpMagAlert, [start_time; valid_until] =>
       g_scale <- getitem_str (VDict d) "g_scale" ;;
       description <- getitem_str (VDict d) "description" ;;
       Ok [MagAlert start_time valid_until g_scale description]
   | OpMagWarning, [issue_time; start_date; end_date] =>
       days <- mag_warning_days self (VDict d) ;;
       cause <- getitem_str (VDict d) "cause" ;;
       comments <- getitem_str (VDict d) "comments" ;;
       Ok [MagWarning issue_time start_date end_date cause days comments]
   | OpAIndex _ _, [valid_time] =>
       index <- getitem_str (VDict d) "index" ;;
       Ok [AIndex valid_time index]
   | OpKIndex _ _ _, [valid_time; analysis_time] =>
       index <- getitem_str (VDict d) "index" ;;
       Ok [KIndex valid_time analysis_time index]
   | OpDstIndex _ _, [valid_time] =>
       index <- getitem_str (VDict d) "index" ;;
       Ok [DstIndex valid_time index]
   | _, _ => Raise TypeError
   end)%result.

(** Every timestamp key of the element is absent (where the operation has
    a marker for that) or a string. *)
Definition times_typed (op : operation) (d : list (string * value)) : Prop :=
  forall k, In k (time_keys op) ->
    match dict_get k d with
    | Some (VStr _) => True
    | None => absent_marker op <> None
    | Some _ => False
    end.

(** The element list of [data] as the service sends it: [data] itself, or
    its first entry for the operations of [nested]. *)
Definition elements (op : operation) (data : value) : option (list value) :=
  match data with
  | VList (x :: l) =>
      if nested op then
        match x with
        | VList items => Some items
        | _ => None
        end
      else Some (x :: l)
  | _ => None
  end.

(** The request of [op] is answered 200 with a JSON object whose [data]
    holds the elements [items]. *)
Definition answered (self : SpaceWeather) (pf : platform) (log : list request)
  (op : operation) (items : list value) : Prop :=
  args_ok self op = true /\
  exists r j data,
    post pf log (request_of self pf op) = Ok r /\
    status_code r = 200 /\
    content r = Some (VDict j) /\
    dict_get "data" j = Some data /\
    elements op data = Some items.

(** [e] is the [KeyError] of one of [keys]. *)
Definition key_error_on (keys : list string) (e : exn) : bool :=
  match e with
  | KeyError (VStr k) => existsb (String.eqb k) keys
  | _ => false
  end.

(* --------------------------------------------------------------------- *)
(** *** Records and elements, field by field *)

(** The named tuple an operation builds. *)
Definition returns (op : operation) (r : record) : bool :=
  match op, r with
  | OpAuroraOutlook, AuroraOutlook _ _ _ _ _ _ _ => true
  | OpAuroraWatch, AuroraWatch _ _ _ _ _ _ _ => true
  | OpAuroraAlert, AuroraAlert _ _ _ _ _ => true
  | OpMagAlert, MagAlert _ _ _ _ => true
  | OpMagWarning, MagWarning _ _ _ _ _ _ => true
  | OpAIndex _ _, AIndex _ _ => true
  | OpKIndex _ _ _, KIndex _ _ _ => true
  | OpDstIndex _ _, DstIndex _ _ => true
  | _, _ => false
  end.

(** The fields of a record that are copied from the element, each under
    the key it is read from. *)
Definition record_scalars (r : record) : list (string * value) :=
  match r with
  | AuroraOutlook _ _ _ cause k_aus lat_band comments
  | AuroraWatch _ _ _ cause k_aus lat_band comments =>
      [("cause", cause); ("k_aus", k_aus); ("lat_band", lat_band);
       ("comments", comments)]
  | AuroraAlert _ _ k_aus lat_band description =>
      [("k_aus", k_aus); ("lat_band", lat_band);
       ("description", description)]
  | MagAlert _ _ g_scale description =>
      [("g_scale", g_scale); ("description", description)]
  | MagWarning _ _ _ cause _ comments =>
      [("cause", cause); ("comments", comments)]
  | AIndex _ index | KIndex _ _ index | DstIndex _ index =>
      [("index", index)]
  end.

(** The keys an operation reads from an element by a plain subscript,
    other than its timestamps. *)
Definition required_keys (op : operation) : list string :=
  match op with
  | OpAuroraOutlook | OpAuroraWatch =>
      ["cause"; "k_aus"; "lat_band"; "comments"]
  | OpAuroraAlert => ["k_aus"; "lat_band"; "description"]
  | OpMagAlert => ["g_scale"; "description"]
  | OpMagWarning => ["activity"; "cause"; "comments"]
  | OpAIndex _ _ | OpKIndex _ _ _ | OpDstIndex _ _ => ["index"]
  end.

(** A [datetime] as the format with minutes shows it: whole seconds, no
    time zone. *)
Definition whole_seconds (t : datetime) : datetime :=
  mk_datetime (year t) (month t) (day t) (hour t) (minute t) (second t)
    0 None.

(** [req.json["options"][k]] *)
Definition option_of (req : request) (k : string) : result value :=
  (options <- getitem_str (json req) "options" ;;
   getitem_str options k)%result.

(** A service that cannot be reached in time. *)
Definition unreachable : platform :=
  mk_platform (fun _ _ => Raise Timeout) false.

(** The path of an operation under [api_url]. *)
Definition endpoint (op : operation) : string :=
  match op with
  | OpAuroraOutlook => "get-aurora-outlook"
  | OpAuroraWatch => "get-aurora-watch"
  | OpAuroraAlert => "get-aurora-alert"
  | OpMagAlert => "get-mag-alert"
  | OpMagWarning => "get-mag-warning"
  | OpAIndex _ _ => "get-a-index"
  | OpKIndex _ _ _ => "get-k-index"
  | OpDstIndex _ _ => "get-dst-index"
  end.

(** A JSON number or boolean. *)
Definition is_scalar (v : value) : bool :=
  match v with
  | VBool _ | VInt _ | VFloat _ => true
  | _ => false
  end.

Definition is_dict (v : value) : bool :=
  match v with
  | VDict _ => true
  | _ => false
  end.

(* --------------------------------------------------------------------- *)
(** *** Notions of the proofs about [strptime] *)

(** The match [re.match] reports. *)
Definition first_match {A} (p : matcher A) (s : string) : option (A * string) :=
  match p s with
  | [] => None
  | x :: _ => Some x
  end.

(** The fields the date directives leave alone. *)
Definition time_of (t : datetime) : Z * Z * Z * Z * option Z :=
  (hour t, minute t, second t, microsecond t, tzinfo t).

Definition date_item (i : fmt_item) : bool :=
  match i with
  | FDir dir_H | FDir dir_M | FDir dir_S => false
  | _ => true
  end.

Fixpoint has_colon (s : string) : bool :=
  match s with
  | EmptyString => false
  | String c r => Ascii.eqb c ":" || has_colon r
  end.

(** A matcher that never consumes a colon. *)
Definition colon_free {A} (p : matcher A) : Prop :=
  forall s a r, In (a, r) (p s) -> has_colon s = has_colon r.

Definition colon_free_item (i : fmt_item) : bool :=
  match i with
  | FLit c => negb (Ascii.eqb c ":")
  | _ => true
  end.

(* --------------------------------------------------------------------- *)
(** *** Further fixtures *)

(** Example A1 of the specification: an aurora outlook. *)
Definition example_outlook : list (string * value) :=
  [("issue_time", VStr "2015-01-12 23:18:00");
   ("start_date", VStr "2015-01-15");
   ("end_date", VStr "2015-01-17");
   ("cause", VStr "coronal mass ejection");
   ("k_aus", VInt 7);
   ("lat_band", VStr "mid");
   ("comments", VStr "A large active solar region is rotating")].

(** A mag alert whose [start_time] is a date only. *)
Definition example_alert_date_only : list (string * value) :=
  [("start_time", VStr "2015-02-07");
   ("valid_until", VStr "2015-02-07 20:45:00");
   ("g_scale", VInt 1);
   ("description", VStr "minor")].

(** The activity of [example_warning]. *)
Definition example_activity : list value :=
  [VDict [("date", VStr "2015-03-02");
          ("forecast", VStr "Unsettled to minor storm")];
   VDict [("date", VStr "2015-03-02");
          ("forecast", VStr "Minor storm")]].

(** A mag-warning element with two activity entries for the same day. *)
Definition example_warning_fields : list (string * value) :=
  [("issue_time", VStr "2015-03-01 23:18:00");
   ("start_date", VStr "2015-03-02");
   ("end_date", VStr "2015-03-03");
   ("cause", VStr "coronal hole");
   ("activity", VList example_activity);
   ("comments", VStr "The effect of the high speed solar wind")].

Definition example_warning : value := VDict example_warning_fields.

(** A client on a service that answers as [echo_start]. *)
Definition echo_platform (pads : bool) : platform :=
  mk_platform (fun _ req => echo_start req) pads.

Arguments strptime : simpl never.
Arguments strftime : simpl never.
Arguments field_value : simpl never.
Arguments field_policy : simpl never.

(* ===================================================================== *)
(** ** Facts about [strptime] and [strftime] *)
(* ===================================================================== *)

(** On a string, [strptime] raises nothing but [ValueError]. *)
Lemma strptime_str_raises s f e :
  strptime (VStr s) f = Raise e -> exists msg, e = ValueError msg.
Proof.
  unfold strptime.
  destruct (compile f) as [c|]; [|intros [= <-]; eauto].
  destruct (regex_match c strptime_defaults s) as [|[t rest] l];
    [intros [= <-]; eauto|].
  destruct (String.eqb rest ""); [|intros [= <-]; eauto].
  destruct (valid_datetime t); [discriminate | intros [= <-]; eauto].
Qed.

(** The first match of a sequence, from the first matches of its parts. *)
Lemma first_match_bind {A B} (p : matcher A) (k : A -> matcher B) s a r x :
  first_match p s = Some (a, r) ->
  first_match (k a) r = Some x ->
  first_match (m_bind p k) s = Some x.
Proof.
  unfold first_match, m_bind.
  destruct (p s) as [|[a' r'] tl]; [discriminate|].
  intros [= -> ->]. simpl.
  destruct (k a r) as [|y tl']; [discriminate|].
  intros [= ->]. reflexivity.
Qed.

(** A property of the integers of a range, case by case. *)
Lemma Z_range_cases (P : Z -> Prop) (lo : Z) (len : nat) :
  (forall k, (k < len)%nat -> P (lo + Z.of_nat k)) ->
  forall n, lo <= n < lo + Z.of_nat len -> P n.
Proof.
  intros H n Hn.
  replace n with (lo + Z.of_nat (Z.to_nat (n - lo))) by lia.
  apply H. lia.
Qed.

Tactic Notation "by_cases" integer(len) :=
  let k := fresh "k" in
  let Hk := fresh "Hk" in
  intros k Hk;
  do len (destruct k as [|k]; [vm_compute; intros; reflexivity|]);
  exfalso; lia.

(** Each directive reads back the two digits [zfill2] wrote. *)
Lemma first_m m r :
  1 <= m <= 12 ->
  first_match (directive_re dir_m) (zfill2 m r) = Some (m, r).
Proof.
  intros H. revert r.
  apply (Z_range_cases (fun m => forall r, first_match (directive_re dir_m) (zfill2 m r) = Some (m, r)) 1 12); [|lia].
  by_cases 12.
Qed.

Lemma first_d d r :
  1 <= d <= 31 ->
  first_match (directive_re dir_d) (zfill2 d r) = Some (d, r).
Proof.
  intros H. revert r.
  apply (Z_range_cases (fun d => forall r, first_match (directive_re dir_d) (zfill2 d r) = Some (d, r)) 1 31); [|lia].
  by_cases 31.
Qed.

Lemma first_H h r :
  0 <= h <= 23 ->
  first_match (directive_re dir_H) (zfill2 h r) = Some (h, r).
Proof.
  intros H. revert r.
  apply (Z_range_cases (fun h => forall r, first_match (directive_re dir_H) (zfill2 h r) = Some (h, r)) 0 24); [|lia].
  by_cases 24.
Qed.

Lemma first_M n r :
  0 <= n <= 59 ->
  first_match (directive_re dir_M) (zfill2 n r) = Some (n, r).
Proof.
  intros H. revert r.
  apply (Z_range_cases (fun n => forall r, first_match (directive_re dir_M) (zfill2 n r) = Some (n, r)) 0 60); [|lia].
  by_cases 60.
Qed.

Lemma first_S n r :
  0 <= n <= 59 ->
  first_match (directive_re dir_S) (zfill2 n r) = Some (n, r).
Proof.
  intros H. revert r.
  apply (Z_range_cases (fun n => forall r, first_match (directive_re dir_S) (zfill2 n r) = Some (n, r)) 0 60); [|lia].
  by_cases 60.
Qed.

Lemma m_digit_char k r :
  0 <= k <= 9 -> m_digit (String (digit_char k) r) = [(k, r)].
Proof.
  intros H. revert r.
  apply (Z_range_cases (fun k => forall r, m_digit (String (digit_char k) r) = [(k, r)]) 0 10); [|lia].
  by_cases 10.
Qed.

Lemma m_bind_single {A B} (p : matcher A) (k : A -> matcher B) s a r :
  p s = [(a, r)] -> m_bind p k s = k a r.
Proof. unfold m_bind. intros ->. simpl. apply app_nil_r. Qed.

(** [%Y] reads back a year printed with four digits. *)
Lemma first_Y pads y r :
  1 <= y <= 9999 ->
  pads = true \/ 1000 <= y ->
  first_match (directive_re dir_Y) (render_year pads y r) = Some (y, r).
Proof.
  intros Hy Hp. unfold render_year.
  assert (E : pads || (1000 <=? y) = true).
  { destruct Hp as [-> | Hp]; [reflexivity|].
    apply orb_true_iff; right. now apply Z.leb_le. }
  rewrite E. unfold first_match. cbv beta iota delta [directive_re].
  assert (D3 : 0 <= y / 1000 mod 10 <= 9) by (Z.div_mod_to_equations; lia).
  assert (D2 : 0 <= y / 100 mod 10 <= 9) by (Z.div_mod_to_equations; lia).
  assert (D1 : 0 <= y / 10 mod 10 <= 9) by (Z.div_mod_to_equations; lia).
  assert (D0 : 0 <= y mod 10 <= 9) by (Z.div_mod_to_equations; lia).
  rewrite (m_bind_single _ _ _ _ _ (m_digit_char _ _ D3)).
  rewrite (m_bind_single _ _ _ _ _ (m_digit_char _ _ D2)).
  rewrite (m_bind_single _ _ _ _ _ (m_digit_char _ _ D1)).
  rewrite (m_bind_single _ _ _ _ _ (m_digit_char _ _ D0)).
  unfold m_ret. do 2 f_equal. Z.div_mod_to_equations; lia.
Qed.

Lemma is_space_digit_char k :
  0 <= k <= 9 -> is_space (digit_char k) = false.
Proof.
  intros H.
  apply (Z_range_cases (fun k => is_space (digit_char k) = false) 0 10 ); [|lia].
  by_cases 10.
Qed.

Lemma first_space n r :
  first_match m_spaces (String " " (zfill2 n r)) = Some (tt, zfill2 n r).
Proof.
  unfold first_match, zfill2. simpl.
  rewrite is_space_digit_char by (Z.div_mod_to_equations; lia).
  reflexivity.
Qed.

Lemma first_lit c r : first_match (m_lit c) (String c r) = Some (tt, r).
Proof. unfold first_match, m_lit. now rewrite Ascii.eqb_refl. Qed.

Lemma first_ret {A} (a : A) s : first_match (m_ret a) s = Some (a, s).
Proof. reflexivity. Qed.

Lemma strptime_first s f c t :
  compile f = Some c ->
  first_match (regex_match c strptime_defaults) s = Some (t, "") ->
  valid_datetime t = true ->
  strptime (VStr s) f = Ok t.
Proof.
  unfold strptime, first_match. intros -> Hm Hv.
  destruct (regex_match c strptime_defaults s) as [|[t' rest] tl];
    [discriminate|].
  injection Hm as -> ->. simpl. now rewrite Hv.
Qed.

Lemma valid_datetime_bounds t :
  valid_datetime t = true ->
  1 <= year t <= 9999 /\ 1 <= month t <= 12 /\ 1 <= day t <= 31 /\
  0 <= hour t <= 23 /\ 0 <= minute t <= 59 /\ 0 <= second t <= 59.
Proof.
  unfold valid_datetime, valid_date, valid_hms, days_in_month.
  intros H. repeat (apply andb_true_iff in H as [H ?]).
  repeat match goal with
  | H : (_ <=? _) = true |- _ => apply Z.leb_le in H
  end.
  assert (day t <= 31).
  { destruct (month t =? 2); [destruct (is_leap (year t)); lia|].
    destruct (_ || _); lia. }
  lia.
Qed.

(** The round trip through the format with minutes. *)
Lemma strptime_strftime pads t :
  valid_datetime t = true ->
  microsecond t = 0 ->
  tzinfo t = None ->
  pads = true \/ 1000 <= year t ->
  strptime (VStr (strftime pads t "%Y-%m-%d %H:%M:%S")) "%Y-%m-%d %H:%M:%S"
  = Ok t.
Proof.
  intros Hv Hus Htz Hp.
  destruct (valid_datetime_bounds t Hv) as (Hy & Hm & Hd & Hh & Hmi & Hs).
  apply strptime_first with
    (c := [FDir dir_Y; FLit "-"; FDir dir_m; FLit "-"; FDir dir_d; FSpace;
           FDir dir_H; FLit ":"; FDir dir_M; FLit ":"; FDir dir_S]);
    [reflexivity | | exact Hv].
  change (strftime pads t "%Y-%m-%d %H:%M:%S") with
    (render_year pads (year t) (String "-" (zfill2 (month t) (String "-"
       (zfill2 (day t) (String " " (zfill2 (hour t) (String ":"
          (zfill2 (minute t) (String ":" (zfill2 (second t) ""))))))))))).
  cbn [regex_match].
  eapply first_match_bind; [now apply first_Y|].
  eapply first_match_bind; [apply first_lit|].
  eapply first_match_bind; [now apply first_m|].
  eapply first_match_bind; [apply first_lit|].
  eapply first_match_bind; [now apply first_d|].
  eapply first_match_bind; [apply first_space|].
  eapply first_match_bind; [now apply first_H|].
  eapply first_match_bind; [apply first_lit|].
  eapply first_match_bind; [now apply first_M|].
  eapply first_match_bind; [apply first_lit|].
  eapply first_match_bind; [now apply first_S|].
  rewrite first_ret. destruct t; simpl in *; subst. reflexivity.
Qed.

Lemma in_m_bind {A B} (p : matcher A) (k : A -> matcher B) s b r :
  In (b, r) (m_bind p k s) ->
  exists a r1, In (a, r1) (p s) /\ In (b, r) (k a r1).
Proof.
  unfold m_bind. intros H. apply in_flat_map in H as [[a r1] [H1 H2]].
  now exists a, r1.
Qed.

(** What a successful [strptime] went through. *)
Lemma strptime_Ok_inv v f t :
  strptime v f = Ok t ->
  exists s c, v = VStr s /\ compile f = Some c /\
    In (t, "") (regex_match c strptime_defaults s) /\
    valid_datetime t = true.
Proof.
  unfold strptime. destruct v; try discriminate.
  destruct (compile f) as [c|]; [|discriminate].
  destruct (regex_match c strptime_defaults s) as [|[t' rest] tl] eqn:E;
    [discriminate|].
  destruct (String.eqb_spec rest ""); [|discriminate].
  destruct (valid_datetime t') eqn:Hv; [|discriminate].
  intros [= ->]. subst rest. exists s, c. repeat split; auto.
  rewrite E. now left.
Qed.



(** A format without [%H], [%M], [%S] leaves the time of day alone. *)
Lemma regex_match_time f :
  forallb date_item f = true ->
  forall acc s t r,
    In (t, r) (regex_match f acc s) -> time_of t = time_of acc.
Proof.
  induction f as [|i f IH]; intros Hf acc s t r Hin.
  - simpl in Hin. destruct Hin as [[= <- _]|[]]. reflexivity.
  - simpl in Hf. apply andb_true_iff in Hf as [Hi Hf].
    destruct i as [d|c|]; cbn [regex_match] in Hin;
      apply in_m_bind in Hin as (a & r1 & _ & Hin);
      apply (IH Hf) in Hin; rewrite Hin; [|reflexivity|reflexivity].
    destruct d; try discriminate; reflexivity.
Qed.

Lemma regex_match_naive f :
  forall acc s t r,
    In (t, r) (regex_match f acc s) ->
    microsecond t = microsecond acc /\ tzinfo t = tzinfo acc.
Proof.
  induction f as [|i f IH]; intros acc s t r Hin.
  - simpl in Hin. destruct Hin as [[= <- _]|[]]. now split.
  - destruct i as [d|c|]; cbn [regex_match] in Hin;
      apply in_m_bind in Hin as (a & r1 & _ & Hin);
      apply IH in Hin as [-> ->]; try (now split).
    destruct d; now split.
Qed.

(** The date-only format gives midnight. *)
Lemma strptime_date_midnight v t :
  strptime v "%Y-%m-%d" = Ok t -> midnight t /\ tzinfo t = None.
Proof.
  intros H. apply strptime_Ok_inv in H as (s & c & -> & Hc & Hin & _).
  injection Hc as <-.
  apply regex_match_time in Hin; [|reflexivity].
  unfold time_of in Hin. simpl in Hin. injection Hin as H1 H2 H3 H4 H5.
  unfold midnight. auto.
Qed.

(** [strptime] returns valid, naive values with no microseconds. *)
Lemma strptime_naive v f t :
  strptime v f = Ok t ->
  valid_datetime t = true /\ microsecond t = 0 /\ tzinfo t = None.
Proof.
  intros H. apply strptime_Ok_inv in H as (s & c & -> & Hc & Hin & Hv).
  apply regex_match_naive in Hin as [-> ->]. now repeat split.
Qed.



(** No directive, literal other than [:], or white space consumes a colon. *)
Lemma cf_ret {A} (a : A) : colon_free (m_ret a).
Proof. intros s a' r [[= _ <-]|[]]. reflexivity. Qed.

Lemma cf_bind {A B} (p : matcher A) (k : A -> matcher B) :
  colon_free p -> (forall a, colon_free (k a)) -> colon_free (m_bind p k).
Proof.
  intros Hp Hk s b r Hin. apply in_m_bind in Hin as (a & r1 & H1 & H2).
  rewrite (Hp _ _ _ H1). exact (Hk _ _ _ _ H2).
Qed.

Lemma cf_alt {A} (p q : matcher A) :
  colon_free p -> colon_free q -> colon_free (m_alt p q).
Proof.
  intros Hp Hq s a r Hin. unfold m_alt in Hin.
  apply in_app_or in Hin as [H|H]; eauto.
Qed.

Lemma cf_range lo hi : hi <= 9 -> colon_free (m_range lo hi).
Proof.
  intros Hhi s a r Hin. unfold m_range in Hin.
  destruct s as [|c s]; [destruct Hin|].
  destruct ((lo <=? code c - 48) && (code c - 48 <=? hi)) eqn:E;
    [|destruct Hin].
  destruct Hin as [[= _ <-]|[]]. simpl.
  apply andb_true_iff in E as [_ E]. apply Z.leb_le in E.
  destruct (Ascii.eqb_spec c ":") as [->|]; [|reflexivity].
  change (code ":" - 48) with 10 in E. lia.
Qed.

Lemma cf_lit c : c <> ":"%char -> colon_free (m_lit c).
Proof.
  intros Hc s a r Hin. unfold m_lit in Hin.
  destruct s as [|c' s]; [destruct Hin|].
  destruct (Ascii.eqb_spec c c') as [<-|]; [|destruct Hin].
  destruct Hin as [[= _ <-]|[]]. simpl.
  destruct (Ascii.eqb_spec c ":"); [contradiction|reflexivity].
Qed.

Lemma cf_spaces : colon_free m_spaces.
Proof.
  intros s. induction s as [|c s IH]; intros a r Hin; [destruct Hin|].
  simpl in Hin. destruct (is_space c) eqn:E; [|destruct Hin].
  assert (Hc : Ascii.eqb c ":" = false).
  { destruct (Ascii.eqb_spec c ":") as [->|]; [discriminate E|reflexivity]. }
  simpl. rewrite Hc. simpl.
  apply in_app_or in Hin as [H|[[= _ <-]|[]]]; [|reflexivity].
  exact (IH _ _ H).
Qed.

Lemma cf_directive d : colon_free (directive_re d).
Proof.
  destruct d; unfold directive_re, m_two, m_digit;
    repeat first [ apply cf_alt | apply cf_bind | apply cf_ret
                 | (apply cf_range; lia) | (apply cf_lit; discriminate)
                 | intros ? ].
Qed.


Lemma regex_match_colon_free f :
  forallb colon_free_item f = true ->
  forall acc, colon_free (regex_match f acc).
Proof.
  induction f as [|i f IH]; intros Hf acc.
  - apply cf_ret.
  - simpl in Hf. apply andb_true_iff in Hf as [Hi Hf].
    destruct i as [d|c|]; cbn [regex_match]; apply cf_bind;
      try (intros; now apply IH).
    + apply cf_directive.
    + apply cf_lit. simpl in Hi. intros ->. discriminate.
    + apply cf_spaces.
Qed.


(** A format with a literal [:] matches only text with a colon. *)
Lemma regex_match_colon f :
  In (FLit ":") f ->
  forall acc s t r, In (t, r) (regex_match f acc s) -> has_colon s = true.
Proof.
  induction f as [|i f IH]; intros Hf acc s t r Hin; [destruct Hf|].
  destruct Hf as [->|Hf].
  - cbn [regex_match] in Hin. apply in_m_bind in Hin as (a & r1 & H1 & _).
    unfold m_lit in H1. destruct s as [|c' s]; [destruct H1|].
    destruct (Ascii.eqb_spec ":" c') as [<-|]; [|destruct H1]. reflexivity.
  - destruct i as [d|c|]; cbn [regex_match] in Hin;
      apply in_m_bind in Hin as (a & r1 & H1 & H2);
      apply (IH Hf) in H2.
    + now rewrite (cf_directive d _ _ _ H1).
    + unfold m_lit in H1. destruct s as [|c' s]; [destruct H1|].
      destruct (Ascii.eqb c c'); [|destruct H1].
      destruct H1 as [[= _ <-]|[]]. simpl. rewrite H2. apply orb_true_r.
    + now rewrite (cf_spaces _ _ _ H1).
Qed.

(** What the format with minutes parses, the date-only format refuses. *)
Lemma strptime_full_not_date s t :
  strptime (VStr s) "%Y-%m-%d %H:%M:%S" = Ok t ->
  exists msg, strptime (VStr s) "%Y-%m-%d" = Raise (ValueError msg).
Proof.
  intros H. apply strptime_Ok_inv in H as (s' & c & [= <-] & Hc & Hin & _).
  injection Hc as <-.
  apply regex_match_colon in Hin; [|simpl; tauto].
  destruct (strptime (VStr s) "%Y-%m-%d") as [t'|e] eqn:E.
  - apply strptime_Ok_inv in E as (s' & c & [= <-] & Hc & Hin' & _).
    injection Hc as <-.
    apply regex_match_colon_free in Hin'; [|reflexivity].
    simpl in Hin'. congruence.
  - destruct (strptime_str_raises _ _ _ E) as [msg ->]. eauto.
Qed.


(* ===================================================================== *)
(** ** Running an operation *)
(* ===================================================================== *)

Lemma check_time_arg_ok self pf log arg :
  time_arg_ok self arg = true ->
  check_time_arg self arg pf log = (Ok (sent self pf arg), log).
Proof.
  destruct arg; simpl; try discriminate; try reflexivity.
  unfold lift, ret, try_except, rbind.
  destruct (String.eqb s ""); simpl; [reflexivity|].
  destruct (strptime _ _); [reflexivity | discriminate].
Qed.

Lemma get_index_run self pf log index_type start end_ location :
  time_arg_ok self start = true ->
  time_arg_ok self end_ = true ->
  _get_index self index_type start end_ location pf log =
  (rbind (post pf log (index_request self index_type (sent self pf start)
                         (sent self pf end_) location))
         (index_response self index_type),
   log ++ [index_request self index_type (sent self pf start)
             (sent self pf end_) location]).
Proof.
  intros Hs He. unfold _get_index, bind.
  rewrite (check_time_arg_ok _ _ _ _ Hs), (check_time_arg_ok _ _ _ _ He).
  unfold requests_post, lift, rbind.
  destruct (post pf log _); reflexivity.
Qed.

(** An operation whose arguments pass issues exactly its request and
    returns what [respond] makes of the answer. *)
Lemma call_run self pf log op :
  args_ok self op = true ->
  call self op pf log =
  (rbind (post pf log (request_of self pf op)) (respond self op),
   log ++ [request_of self pf op]).
Proof.
  intros Hok.
  destruct op; simpl in *;
    try (unfold get_aurora_outlook, get_aurora_watch, get_aurora_alert,
           _get_aurora, get_mag_alert, get_mag_warning, bind, requests_post,
           lift, rbind;
         match goal with |- context [post ?p ?l ?r] =>
           destruct (post p l r); reflexivity end).
  - apply andb_true_iff in Hok as [Hs He].
    unfold get_a_index. now apply get_index_run.
  - apply andb_true_iff in Hok as [Hs He].
    unfold get_k_index, k_location.
    destruct location; now apply get_index_run.
  - apply andb_true_iff in Hok as [Hs He].
    unfold get_dst_index. now apply get_index_run.
Qed.

Lemma mapM_singleton {A B} (f : A -> result B) (l : list A) :
  rbind (mapM (fun x => rbind (f x) (fun r => Ok [r])) l)
        (fun rs => Ok (List.concat rs)) = mapM f l.
Proof.
  induction l as [|x l IH]; simpl; [reflexivity|].
  destruct (f x) as [y|e]; simpl; [|reflexivity].
  destruct (mapM f l) as [ys|e];
    destruct (mapM (fun x => rbind (f x) (fun r => Ok [r])) l) as [zs|e'];
    simpl in *; try congruence.
Qed.

(** The shape every response mapper shares: status check, [data], its
    truth value, the element list, the loop. *)
Lemma respond_shape self op r :
  respond self op r =
  (if negb (status_code r =? 200) then
     rbind (response_json r) (fun body => Raise (HTTPError body))
   else
     rbind (response_json r) (fun j =>
     rbind (getitem_str j "data") (fun data =>
     if py_truthy data then
       rbind (if nested op then getitem_int data 0 else Ok data) (fun d =>
       rbind (py_iter d) (fun items =>
       rbind (mapM (item_of self op) items) (fun rs => Ok (List.concat rs))))
     else Ok []))).
Proof.
  destruct op; simpl;
    unfold aurora_response, mag_alert_response, mag_warning_response,
      index_response;
    destruct (negb (status_code r =? 200)); try reflexivity;
    destruct (response_json r) as [j|?]; simpl; try reflexivity;
    destruct (getitem_str j "data") as [data|?]; simpl; try reflexivity;
    destruct (py_truthy data); try reflexivity;
    try (destruct (getitem_int data 0) as [d|?]; simpl; try reflexivity);
    match goal with |- context [py_iter ?d] =>
      destruct (py_iter d) as [items|?]; simpl; try reflexivity end;
    try (symmetry; apply mapM_singleton).
Qed.

(** What [__init__] returns is a constructed client holding the key. *)
Lemma constructed_init key pf log self log' :
  __init__ key pf log = (Ok self, log') ->
  constructed self /\ api_key self = key /\ _headers self = default_headers.
Proof.
  unfold __init__, _verify_api_key, bind, requests_post, lift, ret.
  destruct (post pf log _) as [r|e]; [|discriminate].
  destruct (status_code r =? 403); [discriminate|].
  destruct (raise_for_status r); [|discriminate].
  intros [= <- _]. repeat split.
Qed.

Lemma request_carries_key self pf op :
  getitem_str (json (request_of self pf op)) "api_key" = Ok (api_key self).
Proof. destruct op; reflexivity. Qed.

(* ===================================================================== *)
(** ** Status codes and the [data] field (C3, C5, C8) *)
(* ===================================================================== *)

(** For every operation whose request was answered with a status other than
    200, the call raises and returns nothing: [HTTPError] carrying the
    decoded body when the body is JSON, the decoding error itself when it is
    not. The log grows by exactly the one request: no second attempt is
    made. *)
Lemma non_200_raises self pf log op r :
  args_ok self op = true ->
  post pf log (request_of self pf op) = Ok r ->
  status_code r <> 200 ->
  call self op pf log =
  (Raise (match content r with
          | Some body => HTTPError body
          | None => JSONDecodeError
          end),
   log ++ [request_of self pf op]).
Proof.
  intros Hok Hpost Hst.
  rewrite (call_run _ _ _ _ Hok), Hpost. simpl.
  rewrite respond_shape.
  apply Z.eqb_neq in Hst. rewrite Hst. simpl.
  unfold response_json. destruct (content r); reflexivity.
Qed.

(** C8. A non-200 answer is never retried or swallowed, and with a JSON
    body the call raises [HTTPError] carrying the decoded body (first part:
    the 400 of the test suite). With a body that is not JSON, as the error
    page of a gateway, the call raises the decoding error of
    [response.json()], evaluated inside [raise requests.HTTPError(...)],
    and not an [HTTPError] (second part: a 502). *)
Theorem C8_error_body_not_json :
  call test_client OpAuroraOutlook
    (mock (mk_response 400
       (Some (VDict [("message", VStr "Unsupported option value")])))) [] =
  (Raise (HTTPError (VDict [("message", VStr "Unsupported option value")])),
   [aurora_request test_client "outlook"]) /\
  call test_client (OpAIndex (VStr "") (VStr ""))
    (mock (mk_response 502 None)) [] =
  (Raise JSONDecodeError,
   [index_request test_client "a-index" (VStr "") (VStr "")
      (VStr "Australian region")]) /\
  is_HTTPError JSONDecodeError = false.
Proof.
  split; [|split].
  - apply (non_200_raises test_client
             (mock (mk_response 400
                (Some (VDict [("message", VStr "Unsupported option value")]))))
             [] OpAuroraOutlook
             (mk_response 400
                (Some (VDict [("message", VStr "Unsupported option value")]))));
      [reflexivity | reflexivity | simpl; lia].
  - apply (non_200_raises test_client (mock (mk_response 502 None)) []
             (OpAIndex (VStr "") (VStr "")) (mk_response 502 None));
      [reflexivity | reflexivity | simpl; lia].
  - reflexivity.
Qed.

(** C3, amended. For every operation, a 200 response whose [data] field is
    present and empty (or false in any other way: [null], [0], [""], [{}])
    makes the call return the empty list; a 200 response with no [data]
    field makes it raise [KeyError]. *)
Theorem C3_empty_data self pf log op r j :
  args_ok self op = true ->
  post pf log (request_of self pf op) = Ok r ->
  status_code r = 200 ->
  content r = Some (VDict j) ->
  (forall data, dict_get "data" j = Some data -> py_truthy data = false ->
     call self op pf log = (Ok [], log ++ [request_of self pf op])) /\
  (dict_get "data" j = None ->
     call self op pf log =
     (Raise (KeyError (VStr "data")), log ++ [request_of self pf op])).
Proof.
  intros Hok Hpost Hst Hc.
  rewrite (call_run _ _ _ _ Hok), Hpost. simpl.
  rewrite respond_shape, Hst. simpl.
  unfold response_json. rewrite Hc. simpl.
  split.
  - intros data Hd Hf. rewrite Hd. simpl. rewrite Hf. reflexivity.
  - intros Hd. rewrite Hd. reflexivity.
Qed.

Lemma C3_empty_data_witness :
  call test_client (OpKIndex (VStr "") (VStr "") VNone)
    (mock (data_response (VList []))) [] =
  (Ok [], [index_request test_client "k-index" (VStr "") (VStr "")
             (VStr "Australian region")]).
Proof.
  apply (proj1 (C3_empty_data test_client (mock (data_response (VList [])))
                  [] (OpKIndex (VStr "") (VStr "") VNone)
                  (data_response (VList [])) [("data", VList [])]
                  eq_refl eq_refl eq_refl eq_refl)
               (VList []) eq_refl eq_refl).
Defined.

(** C3 as stated fails: the body [{}] has no [data] field, and
    [get_aurora_outlook] raises [KeyError] instead of returning []. *)
Lemma C3_absent_data_raises :
  dict_get "data" [] = None /\
  fst (call test_client OpAuroraOutlook
         (mock (mk_response 200 (Some (VDict [])))) []) =
  Raise (KeyError (VStr "data")).
Proof. split; reflexivity. Qed.

(** C5, amended. The probe's answer decides construction: 403 raises
    [ValueError]; any other status from 400 to 599 raises [HTTPError]
    ([raise_for_status]); every other status, 200 or not, accepts the
    credential, which the client stores unchanged and sends in the request
    of every operation. *)
Theorem C5_key_verification key pf log r :
  post pf log (probe_request default_headers key) = Ok r ->
  (status_code r = 403 ->
     __init__ key pf log =
     (Raise (ValueError "HTTP Error 403 - please pass a valid API key."),
      log ++ [probe_request default_headers key])) /\
  (status_code r <> 403 -> 400 <= status_code r < 600 ->
     __init__ key pf log =
     (Raise (HTTPError_for_status r),
      log ++ [probe_request default_headers key])) /\
  (~ (400 <= status_code r < 600) ->
     exists self,
       __init__ key pf log =
       (Ok self, log ++ [probe_request default_headers key]) /\
       constructed self /\
       api_key self = key /\
       forall pf' op,
         getitem_str (json (request_of self pf' op)) "api_key" = Ok key).
Proof.
  intros Hpost.
  unfold __init__, _verify_api_key, bind, requests_post, lift, ret.
  rewrite Hpost. unfold raise_for_status.
  repeat split.
  - intros ->. reflexivity.
  - intros Hne [Hlo Hhi]. apply Z.eqb_neq in Hne. rewrite Hne.
    destruct (Z.ltb_spec (status_code r) 500).
    + replace (400 <=? status_code r) with true by (symmetry; apply Z.leb_le; lia).
      reflexivity.
    + replace (400 <=? status_code r) with true by (symmetry; apply Z.leb_le; lia).
      replace (500 <=? status_code r) with true by (symmetry; apply Z.leb_le; lia).
      replace (status_code r <? 600) with true by (symmetry; apply Z.ltb_lt; lia).
      reflexivity.
  - intros Hout.
    assert (Hne : (status_code r =? 403) = false) by (apply Z.eqb_neq; lia).
    rewrite Hne.
    assert (Hno : ((400 <=? status_code r) && (status_code r <? 500)
                   || (500 <=? status_code r) && (status_code r <? 600))
                  = false).
    { apply orb_false_iff; split; apply andb_false_iff;
        destruct (Z.leb_spec 400 (status_code r));
        destruct (Z.ltb_spec (status_code r) 500);
        destruct (Z.leb_spec 500 (status_code r));
        destruct (Z.ltb_spec (status_code r) 600); auto; lia. }
    rewrite Hno.
    eexists. split; [reflexivity|].
    split; [split; reflexivity|].
    split; [reflexivity|].
    intros pf' op. apply request_carries_key.
Qed.

Lemma C5_key_verification_witness :
  __init__ (VStr "0000") (mock (mk_response 403 None)) [] =
  (Raise (ValueError "HTTP Error 403 - please pass a valid API key."),
   [probe_request default_headers (VStr "0000")]).
Proof.
  apply (proj1 (C5_key_verification (VStr "0000")
                  (mock (mk_response 403 None)) [] (mk_response 403 None)
                  eq_refl) eq_refl).
Defined.

(** C5 as stated fails: 304 is neither 403 nor a success status, yet the
    probe answered with it raises nothing and the client is built. *)
Lemma C5_status_304_accepted :
  spec_success_status 304 = false /\
  fst (__init__ (VStr "0000") (mock (mk_response 304 None)) []) =
  Ok (mk_SpaceWeather default_headers (VStr "0000")
        "%Y-%m-%d" "%Y-%m-%d %H:%M:%S").
Proof. split; reflexivity. Qed.

(* ===================================================================== *)
(** ** The time range of the index operations (C4) *)
(* ===================================================================== *)

Lemma check_time_arg_rejects self pf log s e :
  s <> "" ->
  strptime (VStr s) (_time_format_with_minutes self) = Raise e ->
  check_time_arg self (VStr s) pf log =
  (Raise (ValueError time_range_message), log).
Proof.
  intros Hne Hbad. simpl.
  apply String.eqb_neq in Hne. rewrite Hne. simpl.
  unfold lift, try_except, rbind. rewrite Hbad.
  destruct (strptime_str_raises _ _ _ Hbad) as [msg ->]. reflexivity.
Qed.

Lemma check_time_arg_cases self pf log arg :
  is_time_arg arg = true ->
  check_time_arg self arg pf log = (Ok (sent self pf arg), log) \/
  check_time_arg self arg pf log =
  (Raise (ValueError time_range_message), log).
Proof.
  destruct arg; try discriminate; intros _.
  - destruct (time_arg_ok self (VStr s)) eqn:Hok.
    + left. now apply check_time_arg_ok.
    + right. simpl in Hok. apply orb_false_iff in Hok as [Hne Hbad].
      destruct (strptime (VStr s) (_time_format_with_minutes self)) eqn:E;
        [discriminate|].
      apply String.eqb_neq in Hne.
      eapply check_time_arg_rejects; eauto.
  - left. reflexivity.
Qed.

Lemma get_index_rejects self pf log index_type start end_ location s e :
  is_time_arg start = true ->
  start = VStr s \/ end_ = VStr s ->
  s <> "" ->
  strptime (VStr s) (_time_format_with_minutes self) = Raise e ->
  _get_index self index_type start end_ location pf log =
  (Raise (ValueError time_range_message), log).
Proof.
  intros Hts [-> | ->] Hne Hbad; unfold _get_index, bind.
  - now rewrite (check_time_arg_rejects _ _ _ _ _ Hne Hbad).
  - destruct (check_time_arg_cases self pf log start Hts) as [-> | ->];
      [|reflexivity].
    now rewrite (check_time_arg_rejects _ _ _ _ _ Hne Hbad).
Qed.

(** C4, amended. For [get_a_index], [get_k_index] and [get_dst_index], a
    [start] or [end] string that is not empty and that [strptime] does not
    parse with ["%Y-%m-%d %H:%M:%S"] makes the call raise [ValueError]
    with no request issued (the log is unchanged). [strptime] decides the
    match: it takes fields without their leading zero and any run of white
    space between date and time. *)
Theorem C4_time_range_rejected self pf log op start end_ s e :
  constructed self ->
  time_range op = Some (start, end_) ->
  is_time_arg start = true ->
  start = VStr s \/ end_ = VStr s ->
  s <> "" ->
  strptime (VStr s) "%Y-%m-%d %H:%M:%S" = Raise e ->
  call self op pf log = (Raise (ValueError time_range_message), log).
Proof.
  intros [_ Hf] Hop Hts Hor Hne Hbad. rewrite <- Hf in Hbad.
  destruct op; simpl in Hop; try discriminate;
    injection Hop as <- <-; simpl;
    unfold get_a_index, get_k_index, get_dst_index;
    try destruct location;
    eapply get_index_rejects; eauto.
Qed.

Lemma C4_time_range_rejected_witness :
  call test_client (OpAIndex (VStr "2024") (VStr "2024-01-01 00:00:00"))
    (mock (data_response example_a2)) [] =
  (Raise (ValueError time_range_message), []).
Proof.
  apply (C4_time_range_rejected test_client (mock (data_response example_a2))
           [] (OpAIndex (VStr "2024") (VStr "2024-01-01 00:00:00"))
           (VStr "2024") (VStr "2024-01-01 00:00:00") "2024"
           (ValueError "time data does not match format")).
  - split; reflexivity.
  - reflexivity.
  - reflexivity.
  - left; reflexivity.
  - discriminate.
  - reflexivity.
Defined.

(** C4 as stated fails: ["2024-1-1 0:0:0"] is not empty and is not of the
    shape YYYY-MM-DD HH:mm:ss, yet [get_a_index] raises nothing and issues
    its request, with the string sent as it is. *)
Lemma C4_unpadded_start_accepted :
  spec_exact_format "2024-1-1 0:0:0" = false /\
  call test_client (OpAIndex (VStr "2024-1-1 0:0:0") (VStr ""))
    (mock (data_response (VList []))) [] =
  (Ok [], [index_request test_client "a-index" (VStr "2024-1-1 0:0:0")
             (VStr "") (VStr "Australian region")]).
Proof. split; reflexivity. Qed.

(* ===================================================================== *)
(** ** Where the element list is (C6) *)
(* ===================================================================== *)

Lemma respond_list self op r j data :
  status_code r = 200 ->
  content r = Some (VDict j) ->
  dict_get "data" j = Some data ->
  py_truthy data = true ->
  respond self op r =
  rbind (if nested op then getitem_int data 0 else Ok data) (fun d =>
  rbind (py_iter d) (fun items =>
  rbind (mapM (item_of self op) items) (fun rs => Ok (List.concat rs)))).
Proof.
  intros Hst Hc Hd Ht. rewrite respond_shape, Hst. simpl.
  unfold response_json. rewrite Hc. simpl. rewrite Hd. simpl.
  now rewrite Ht.
Qed.

(** C6. In a 200 response, [get_a_index] and [get_dst_index] loop over the
    elements of [data[0]] (whatever follows it in [data] is not read), and
    every other operation loops over the elements of [data] itself. The
    a-index payload of example A2 gives two [AIndex] records, in the order
    of the input, with index 5 and 6. *)
Theorem C6_element_list self r j :
  status_code r = 200 ->
  content r = Some (VDict j) ->
  (forall items rest,
     dict_get "data" j = Some (VList (VList items :: rest)) ->
     index_response self "a-index" r = mapM (index_item self "a-index") items
     /\ index_response self "dst-index" r =
        mapM (index_item self "dst-index") items) /\
  (forall items,
     items <> [] ->
     dict_get "data" j = Some (VList items) ->
     index_response self "k-index" r = mapM (index_item self "k-index") items
     /\ (forall aurora_type,
           aurora_response self aurora_type r =
           rbind (mapM (aurora_item self aurora_type) items)
                 (fun auroras => Ok (List.concat auroras)))
     /\ mag_alert_response self r = mapM (mag_alert_item self) items
     /\ mag_warning_response self r = mapM (mag_warning_item self) items) /\
  call test_client (OpAIndex (VStr "") (VStr ""))
    (mock (data_response example_a2)) [] =
  (Ok [AIndex (VDatetime (at_time 2021 12 4 0 0 0)) (VInt 5);
       AIndex (VDatetime (at_time 2021 12 5 0 0 0)) (VInt 6)],
   [index_request test_client "a-index" (VStr "") (VStr "")
      (VStr "Australian region")]).
Proof.
  intros Hst Hc. split; [|split].
  - intros items rest Hd. split.
    + change (index_response self "a-index" r)
        with (respond self (OpAIndex VNone VNone) r).
      rewrite (respond_list _ _ _ _ _ Hst Hc Hd eq_refl). simpl.
      apply mapM_singleton.
    + change (index_response self "dst-index" r)
        with (respond self (OpDstIndex VNone VNone) r).
      rewrite (respond_list _ _ _ _ _ Hst Hc Hd eq_refl). simpl.
      apply mapM_singleton.
  - intros items Hne Hd.
    assert (Ht : py_truthy (VList items) = true)
      by (destruct items; [congruence | reflexivity]).
    repeat split.
    + change (index_response self "k-index" r)
        with (respond self (OpKIndex VNone VNone VNone) r).
      rewrite (respond_list _ _ _ _ _ Hst Hc Hd Ht). simpl.
      apply mapM_singleton.
    + intros aurora_type. unfold aurora_response.
      rewrite Hst. simpl. unfold response_json. rewrite Hc. simpl.
      rewrite Hd. simpl. destruct items; [congruence | reflexivity].
    + change (mag_alert_response self r)
        with (respond self OpMagAlert r).
      rewrite (respond_list _ _ _ _ _ Hst Hc Hd Ht). simpl.
      apply mapM_singleton.
    + change (mag_warning_response self r)
        with (respond self OpMagWarning r).
      rewrite (respond_list _ _ _ _ _ Hst Hc Hd Ht). simpl.
      apply mapM_singleton.
  - reflexivity.
Qed.

Lemma C6_element_list_witness :
  index_response test_client "dst-index" (data_response example_a2) =
  mapM (index_item test_client "dst-index")
    [VDict [("index", VInt 5); ("valid_time", VStr "2021-12-04 00:00:00")];
     VDict [("index", VInt 6); ("valid_time", VStr "2021-12-05 00:00:00")]].
Proof.
  apply (proj2 (proj1 (C6_element_list test_client (data_response example_a2)
                         [("data", example_a2)] eq_refl eq_refl)
                      _ [] eq_refl)).
Defined.

(* ===================================================================== *)
(** ** Elements and their timestamps *)
(* ===================================================================== *)

Lemma dict_get_set_same k v d : dict_get k (dict_set k v d) = Some v.
Proof.
  induction d as [|[k' v'] d IH]; simpl.
  - now rewrite String.eqb_refl.
  - destruct (String.eqb k k') eqn:E; simpl; rewrite E; auto.
Qed.

Lemma dict_get_set_other k k' v d :
  k <> k' -> dict_get k (dict_set k' v d) = dict_get k d.
Proof.
  intros Hne. induction d as [|[k2 v2] d IH]; simpl.
  - apply String.eqb_neq in Hne. now rewrite Hne.
  - destruct (String.eqb_spec k' k2) as [->|]; simpl.
    + apply String.eqb_neq in Hne. now rewrite Hne.
    + now rewrite IH.
Qed.

Lemma dict_set_same k v d : dict_get k d = Some v -> dict_set k v d = d.
Proof.
  induction d as [|[k' v'] d IH]; simpl; [discriminate|].
  destruct (String.eqb k k'); [intros [= ->]; reflexivity|].
  intros H. now rewrite IH.
Qed.

Lemma field_policy_raises op s e :
  field_policy op s = Raise e -> exists msg, e = ValueError msg.
Proof.
  unfold field_policy. destruct (two_formats op).
  - destruct (strptime (VStr s) "%Y-%m-%d %H:%M:%S"); [discriminate|].
    apply strptime_str_raises.
  - apply strptime_str_raises.
Qed.

(** The nested [try] of lines 119-131 and 273-285, on a dictionary. *)
Lemma parse_time_period_spec self op d k :
  constructed self ->
  two_formats op = true ->
  parse_time_period self (VDict d) k =
  match dict_get k d with
  | None => Raise (KeyError (VStr k))
  | Some (VStr s) => rbind (field_policy op s) (fun t => Ok (VDatetime t))
  | Some _ => Raise TypeError
  end.
Proof.
  intros [Hd Hf] Htwo. unfold parse_time_period, field_policy.
  rewrite Hd, Hf, Htwo. simpl.
  destruct (dict_get k d) as [x|]; [|reflexivity]. simpl.
  destruct x; try reflexivity.
  destruct (strptime (VStr s) "%Y-%m-%d %H:%M:%S") as [t|e] eqn:E;
    [reflexivity|].
  destruct (strptime_str_raises _ _ _ E) as [msg ->]. simpl.
  destruct (strptime (VStr s) "%Y-%m-%d"); reflexivity.
Qed.

Lemma aurora_step self op d k tps :
  constructed self ->
  two_formats op = true ->
  absent_marker op = Some (VStr "") ->
  dict_get k tps = Some (VStr "") ->
  try_except
    (rbind (parse_time_period self (VDict d) k)
           (fun time => Ok (dict_set k time tps)))
    is_KeyError (Ok tps) =
  rbind (field_value op d k) (fun v => Ok (dict_set k v tps)).
Proof.
  intros Hc Htwo Hm Ht. rewrite (parse_time_period_spec _ op) by assumption.
  unfold field_value. rewrite Hm.
  destruct (dict_get k d) as [x|]; simpl.
  - destruct x; try reflexivity.
    destruct (field_policy op s) as [t|e] eqn:E; [reflexivity|].
    destruct (field_policy_raises _ _ _ E) as [msg ->]. reflexivity.
  - now rewrite (dict_set_same _ _ _ Ht).
Qed.

Lemma mag_warning_step self d k tps :
  constructed self ->
  try_except
    (rbind (parse_time_period self (VDict d) k)
           (fun time => Ok (dict_set k time tps)))
    is_KeyError (Ok (dict_set k VNone tps)) =
  rbind (field_value OpMagWarning d k) (fun v => Ok (dict_set k v tps)).
Proof.
  intros Hc. rewrite (parse_time_period_spec _ OpMagWarning) by easy.
  unfold field_value. simpl absent_marker.
  destruct (dict_get k d) as [x|]; simpl; [|reflexivity].
  destruct x; try reflexivity.
  destruct (field_policy OpMagWarning s) as [t|e] eqn:E; [reflexivity|].
  destruct (field_policy_raises _ _ _ E) as [msg ->]. reflexivity.
Qed.

Lemma mag_alert_step self d0 d k :
  constructed self ->
  dict_get k d = dict_get k d0 ->
  try_except
    (rbind (getitem_str (VDict d) k) (fun v =>
     rbind (strptime v (_time_format_with_minutes self)) (fun time =>
     setitem_str (VDict d) k (VDatetime time))))
    is_KeyError (setitem_str (VDict d) k VNone) =
  rbind (field_value OpMagAlert d0 k) (fun v => Ok (VDict (dict_set k v d))).
Proof.
  intros [_ Hf] Hk. rewrite Hf. unfold field_value, field_policy, getitem_str.
  rewrite <- Hk. simpl.
  destruct (dict_get k d) as [x|]; simpl; [|reflexivity].
  destruct x; try reflexivity.
  destruct (strptime (VStr s) "%Y-%m-%d %H:%M:%S") as [t|e] eqn:E;
    [reflexivity|].
  destruct (strptime_str_raises _ _ _ E) as [msg ->]. reflexivity.
Qed.

Lemma index_field self op d k :
  constructed self ->
  two_formats op = false ->
  absent_marker op = None ->
  forall {A} (K : datetime -> result A),
  rbind (getitem_str (VDict d) k) (fun v =>
  rbind (strptime v (_time_format_with_minutes self)) K) =
  rbind (field_value op d k)
        (fun v => match v with VDatetime t => K t | _ => Raise TypeError end).
Proof.
  intros [_ Hf] Htwo Hm A K. rewrite Hf.
  unfold field_value, field_policy, getitem_str. rewrite Htwo, Hm.
  destruct (dict_get k d) as [x|]; simpl; [|reflexivity].
  destruct x; try reflexivity.
  destruct (strptime (VStr s) "%Y-%m-%d %H:%M:%S"); reflexivity.
Qed.

Lemma foldM_cons {A S} (f : S -> A -> result S) x l s :
  foldM f (x :: l) s = rbind (f s x) (foldM f l).
Proof. simpl. destruct (f s x); reflexivity. Qed.

Ltac split_field op :=
  cbn [mapM];
  match goal with
  | |- context [field_value op ?d ?k] =>
      destruct (field_value op d k); cbn [rbind]; [|reflexivity]
  end.

Ltac aurora_steps op :=
  repeat (rewrite foldM_cons;
          match goal with
          | Hc : constructed ?self
            |- context [try_except
                          (rbind (parse_time_period ?self (VDict ?d) ?k) _)
                          is_KeyError (Ok ?tps)] =>
              rewrite (aurora_step self op d k tps Hc eq_refl eq_refl eq_refl)
          end;
          split_field op;
          simpl dict_set).

Ltac warning_steps :=
  repeat (rewrite foldM_cons;
          match goal with
          | Hc : constructed ?self
            |- context [try_except
                          (rbind (parse_time_period ?self (VDict ?d) ?k) _)
                          is_KeyError (Ok (dict_set ?k VNone ?tps))] =>
              rewrite (mag_warning_step self d k tps Hc)
          end;
          split_field OpMagWarning;
          simpl dict_set).

Lemma field_value_no_marker op d k v :
  absent_marker op = None ->
  field_value op d k = Ok v -> exists t, v = VDatetime t.
Proof.
  unfold field_value. intros ->.
  destruct (dict_get k d) as [x|]; [|discriminate].
  destruct x; try discriminate.
  destruct (field_policy op s); [|discriminate].
  intros [= <-]. eauto.
Qed.

Ltac index_field_cases op :=
  cbn [mapM];
  match goal with
  | |- context [field_value op ?d ?k] =>
      let E := fresh "E" in
      let t := fresh "t" in
      destruct (field_value op d k) eqn:E; cbn [rbind]; [|reflexivity];
      destruct (field_value_no_marker op d k _ eq_refl E) as [t ->]
  end.

(** The loop body of every operation: first the timestamps of the element,
    key by key as [field_value] says, then the record. *)
Lemma item_closed self op d :
  constructed self ->
  item_of self op (VDict d) =
  rbind (mapM (field_value op d) (time_keys op)) (build self op d).
Proof.
  intros Hc. destruct op; cbn [item_of time_keys].
  - unfold aurora_item, aurora_time_periods.
    cbn [map fst aurora_time_periods_init].
    aurora_steps OpAuroraOutlook. reflexivity.
  - unfold aurora_item, aurora_time_periods.
    cbn [map fst aurora_time_periods_init].
    aurora_steps OpAuroraWatch. reflexivity.
  - unfold aurora_item, aurora_time_periods.
    cbn [map fst aurora_time_periods_init].
    aurora_steps OpAuroraAlert. reflexivity.
  - unfold mag_alert_item, mag_alert_times.
    rewrite foldM_cons.
    rewrite (mag_alert_step self d d "start_time" Hc eq_refl).
    split_field OpMagAlert.
    rewrite foldM_cons.
    match goal with |- context [dict_set "start_time" ?v d] =>
      rewrite (mag_alert_step self d (dict_set "start_time" v d)
                 "valid_until" Hc
                 (dict_get_set_other "valid_until" "start_time" v d
                    ltac:(discriminate)))
    end.
    split_field OpMagAlert.
    cbn [foldM rbind build getitem_str].
    rewrite (dict_get_set_other "start_time" "valid_until") by discriminate.
    rewrite dict_get_set_same, dict_get_set_same.
    rewrite !(dict_get_set_other "g_scale") by discriminate.
    rewrite !(dict_get_set_other "description") by discriminate.
    destruct (dict_get "g_scale" d); [|reflexivity].
    destruct (dict_get "description" d); reflexivity.
  - unfold mag_warning_item, mag_warning_time_periods.
    cbn [map fst mag_warning_time_periods_init].
    warning_steps.
    cbn [foldM rbind build].
    destruct (mag_warning_days self (VDict d)); [|reflexivity]. cbn [rbind].
    destruct (getitem_str (VDict d) "cause"); [|reflexivity]. cbn [rbind].
    destruct (getitem_str (VDict d) "comments"); reflexivity.
  - unfold index_item. simpl String.eqb. cbv iota.
    rewrite (index_field self (OpAIndex start end_)) by easy.
    index_field_cases (OpAIndex start end_).
    cbn [build]. destruct (getitem_str (VDict d) "index"); reflexivity.
  - unfold index_item. simpl String.eqb. cbv iota.
    rewrite (index_field self (OpKIndex start end_ location)) by easy.
    index_field_cases (OpKIndex start end_ location).
    rewrite (index_field self (OpKIndex start end_ location)) by easy.
    index_field_cases (OpKIndex start end_ location).
    cbn [build]. destruct (getitem_str (VDict d) "index"); reflexivity.
  - unfold index_item. simpl String.eqb. cbv iota.
    rewrite (index_field self (OpDstIndex start end_)) by easy.
    index_field_cases (OpDstIndex start end_).
    cbn [build]. destruct (getitem_str (VDict d) "index"); reflexivity.
Qed.

(* --------------------------------------------------------------------- *)
(** *** Loops *)

Lemma mapM_Ok_Forall2 {A B} (f : A -> result B) l ys :
  mapM f l = Ok ys -> Forall2 (fun x y => f x = Ok y) l ys.
Proof.
  revert ys. induction l as [|x l IH]; simpl; intros ys.
  - intros [= <-]. constructor.
  - destruct (f x) as [y|] eqn:E; [|discriminate].
    destruct (mapM f l) as [ys'|]; [|discriminate].
    intros [= <-]. constructor; auto.
Qed.

Lemma Forall2_mapM_Ok {A B} (f : A -> result B) l ys :
  Forall2 (fun x y => f x = Ok y) l ys -> mapM f l = Ok ys.
Proof.
  induction 1 as [|x y l ys Hx _ IH]; simpl; [reflexivity|].
  now rewrite Hx, IH.
Qed.

Lemma mapM_Raise_inv {A B} (f : A -> result B) l e :
  mapM f l = Raise e -> exists x, In x l /\ f x = Raise e.
Proof.
  induction l as [|x l IH]; simpl; [discriminate|].
  destruct (f x) as [y|e'] eqn:E.
  - destruct (mapM f l) as [ys|e'']; [discriminate|].
    intros [= ->]. destruct (IH eq_refl) as (x' & Hin & Hx'). eauto.
  - intros [= ->]. eauto.
Qed.

Lemma mapM_In_Raise {A B} (f : A -> result B) l x e :
  In x l -> f x = Raise e -> exists e', mapM f l = Raise e'.
Proof.
  induction l as [|y l IH]; simpl; [intros []|].
  intros [->|Hin] Hx.
  - rewrite Hx. eauto.
  - destruct (f y); [|eauto].
    destruct (IH Hin Hx) as [e' ->]. eauto.
Qed.

Lemma Forall2_combine_In {A B} (R : A -> B -> Prop) l l' x y :
  Forall2 R l l' -> In (x, y) (combine l l') -> R x y.
Proof.
  induction 1 as [|a b l l' Hab _ IH]; simpl; [intros []|].
  intros [[= -> ->]|Hin]; auto.
Qed.

(* --------------------------------------------------------------------- *)
(** *** The policy, field by field *)

Lemma field_value_Ok_inv op d k v :
  field_value op d k = Ok v ->
  (dict_get k d = None /\ absent_marker op = Some v) \/
  (exists s t, dict_get k d = Some (VStr s) /\ field_policy op s = Ok t /\
               v = VDatetime t).
Proof.
  unfold field_value. destruct (dict_get k d) as [x|].
  - destruct x; try discriminate.
    destruct (field_policy op s) as [t|] eqn:E; [|discriminate].
    intros [= <-]. right. eauto.
  - destruct (absent_marker op); [|discriminate].
    intros [= <-]. now left.
Qed.

Lemma field_value_str op d k s :
  dict_get k d = Some (VStr s) ->
  field_value op d k = rbind (field_policy op s) (fun t => Ok (VDatetime t)).
Proof. unfold field_value. now intros ->. Qed.

Lemma field_policy_valid op s t :
  field_policy op s = Ok t ->
  valid_datetime t = true /\ microsecond t = 0 /\ tzinfo t = None.
Proof.
  unfold field_policy. destruct (two_formats op).
  - destruct (strptime (VStr s) "%Y-%m-%d %H:%M:%S") eqn:E.
    + intros [= <-]. eapply strptime_naive; eauto.
    + apply strptime_naive.
  - apply strptime_naive.
Qed.

(* --------------------------------------------------------------------- *)
(** *** One element *)

Lemma item_dict self op elem rs :
  item_of self op elem = Ok rs -> exists d, elem = VDict d.
Proof.
  destruct elem; eauto; destruct op; discriminate.
Qed.

Lemma build_times self op d vs rs :
  build self op d vs = Ok rs ->
  forall r k v, In r rs -> In (k, v) (record_times r) ->
                In (k, v) (combine (time_keys op) vs).
Proof.
  intros H.
  destruct op; cbn [build time_keys] in *;
    repeat (destruct vs as [|? vs]; try discriminate);
    repeat match goal with
    | H : rbind ?x _ = Ok _ |- _ =>
        destruct x; cbn [rbind] in H; try discriminate
    end;
    injection H as <-; intros r' k' v' [<-|[]] Hin; simpl in Hin |- *; tauto.
Qed.

(** A timestamp field of a record is the [field_value] of its key. *)
Lemma item_times self op d rs :
  constructed self ->
  item_of self op (VDict d) = Ok rs ->
  forall r k v, In r rs -> In (k, v) (record_times r) ->
                field_value op d k = Ok v.
Proof.
  intros Hc H. rewrite item_closed in H by assumption.
  destruct (mapM (field_value op d) (time_keys op)) as [vs|] eqn:E;
    [|discriminate].
  cbn [rbind] in H. intros r k v Hr Hk.
  apply mapM_Ok_Forall2 in E.
  eapply (Forall2_combine_In _ _ _ _ _ E).
  eapply build_times; eauto.
Qed.

Lemma item_raises self op d k e :
  constructed self ->
  In k (time_keys op) ->
  field_value op d k = Raise e ->
  exists x, item_of self op (VDict d) = Raise x.
Proof.
  intros Hc Hk He. rewrite item_closed by assumption.
  destruct (mapM_In_Raise _ _ _ _ Hk He) as [x ->]. simpl. eauto.
Qed.

(* --------------------------------------------------------------------- *)
(** *** From the elements to the call *)

(** An answered call maps the loop body over the elements. *)
Lemma answered_call self pf log op items :
  answered self pf log op items ->
  call self op pf log =
  (rbind (mapM (item_of self op) items) (fun rs => Ok (List.concat rs)),
   log ++ [request_of self pf op]).
Proof.
  intros (Hok & r & j & data & Hpost & Hst & Hc & Hd & He).
  rewrite (call_run _ _ _ _ Hok), Hpost. cbn [rbind].
  assert (Ht : py_truthy data = true).
  { destruct data; try discriminate. destruct l; [discriminate|reflexivity]. }
  rewrite (respond_list _ _ _ _ _ Hst Hc Hd Ht).
  unfold elements in He.
  destruct data; try discriminate. destruct l as [|x l]; [discriminate|].
  destruct (nested op).
  - destruct x; try discriminate. injection He as <-. reflexivity.
  - injection He as <-. reflexivity.
Qed.

Lemma answered_raises self pf log op items x e :
  answered self pf log op items ->
  In x items ->
  item_of self op x = Raise e ->
  exists e', call self op pf log = (Raise e', log ++ [request_of self pf op]).
Proof.
  intros Ha Hin He. rewrite (answered_call _ _ _ _ _ Ha).
  destruct (mapM_In_Raise _ _ _ _ Hin He) as [e' ->]. simpl. eauto.
Qed.

Lemma mapM_first_Raise {A B} (f : A -> result B) pre x post ys e :
  mapM f pre = Ok ys ->
  f x = Raise e ->
  mapM f (pre ++ x :: post) = Raise e.
Proof.
  revert ys. induction pre as [|y pre IH]; simpl; intros ys Hpre Hx.
  - now rewrite Hx.
  - destruct (f y); [|discriminate].
    destruct (mapM f pre) as [ys'|]; [|discriminate].
    now rewrite (IH ys' eq_refl Hx).
Qed.

(** The error of the first element that fails is the error of the call. *)
Lemma answered_first_raise self pf log op pre x post rss e :
  answered self pf log op (pre ++ x :: post) ->
  mapM (item_of self op) pre = Ok rss ->
  item_of self op x = Raise e ->
  call self op pf log = (Raise e, log ++ [request_of self pf op]).
Proof.
  intros Ha Hpre He. rewrite (answered_call _ _ _ _ _ Ha).
  now rewrite (mapM_first_Raise _ _ _ _ _ _ Hpre He).
Qed.

Lemma respond_Ok_inv self op r rs :
  respond self op r = Ok rs ->
  forall x, In x rs ->
    exists elem rs', item_of self op elem = Ok rs' /\ In x rs'.
Proof.
  rewrite respond_shape.
  destruct (negb (status_code r =? 200)).
  { destruct (response_json r); discriminate. }
  destruct (response_json r) as [j|]; [|discriminate]. cbn [rbind].
  destruct (getitem_str j "data") as [data|]; [|discriminate]. cbn [rbind].
  destruct (py_truthy data); [|intros [= <-] x []].
  destruct (if nested op then getitem_int data 0 else Ok data) as [d|];
    [|discriminate]. cbn [rbind].
  destruct (py_iter d) as [items|]; [|discriminate]. cbn [rbind].
  destruct (mapM (item_of self op) items) as [rss|] eqn:E; [|discriminate].
  cbn [rbind]. intros [= <-] x Hx.
  apply in_concat in Hx as (rs' & Hrs' & Hx).
  apply mapM_Ok_Forall2 in E.
  clear -E Hrs' Hx. induction E as [|elem y l l' Hy _ IH]; [destruct Hrs'|].
  destruct Hrs' as [->|Hin]; eauto.
Qed.

Lemma get_index_Ok_inv self index_type start end_ location pf log rs log' :
  _get_index self index_type start end_ location pf log = (Ok rs, log') ->
  exists r, index_response self index_type r = Ok rs.
Proof.
  unfold _get_index, bind.
  destruct (check_time_arg self start pf log) as [[s1|] l1]; [|discriminate].
  destruct (check_time_arg self end_ pf l1) as [[s2|] l2]; [|discriminate].
  unfold requests_post, lift.
  destruct (post pf l2 _) as [r|]; [|discriminate].
  intros [= H _]. eauto.
Qed.

(** A call that returns got its records from a response. *)
Lemma call_Ok_inv self op pf log rs log' :
  call self op pf log = (Ok rs, log') ->
  exists r, respond self op r = Ok rs.
Proof.
  destruct op; simpl;
    try (unfold get_aurora_outlook, get_aurora_watch, get_aurora_alert,
           _get_aurora, get_mag_alert, get_mag_warning, bind, requests_post,
           lift;
         match goal with |- context [post ?p ?l ?r] =>
           destruct (post p l r); [|discriminate] end;
         intros [= H _]; eauto).
  - apply get_index_Ok_inv.
  - unfold get_k_index. destruct location; apply get_index_Ok_inv.
  - apply get_index_Ok_inv.
Qed.

Lemma times_typed_raise op d k e :
  times_typed op d ->
  In k (time_keys op) ->
  field_value op d k = Raise e ->
  exists msg, e = ValueError msg.
Proof.
  intros Ht Hk. specialize (Ht k Hk). unfold field_value.
  destruct (dict_get k d) as [x|].
  - destruct x; try contradiction.
    destruct (field_policy op s) eqn:E; [discriminate|].
    intros [= <-]. eapply field_policy_raises; eauto.
  - destruct (absent_marker op); [discriminate|congruence].
Qed.

(* ===================================================================== *)
(** ** Parsing the timestamps of an element (C1) *)
(* ===================================================================== *)

(** C1, amended. Let the timestamp key [k] of an operation be bound to the
    string [s] in an element. The aurora operations and [get_mag_warning]
    parse [s] with ["%Y-%m-%d %H:%M:%S"] first and, when that raises, with
    ["%Y-%m-%d"], which gives midnight of that day; [get_mag_alert] and the
    index operations parse it with ["%Y-%m-%d %H:%M:%S"] only
    ([field_policy]). When the element yields records, the field read from
    [k] is the time so parsed. When the policy cannot parse [s], its error
    is a [ValueError] and the element fails, hence every call whose response
    holds the element; the element fails with a [ValueError] when its other
    timestamp fields are strings (or absent, for an operation with a
    marker), and so does the call when the elements before it map. *)
Theorem C1_timestamp_policy self op d k s :
  constructed self ->
  In k (time_keys op) ->
  dict_get k d = Some (VStr s) ->
  (forall rs,
     item_of self op (VDict d) = Ok rs ->
     exists t,
       field_policy op s = Ok t /\
       forall r v, In r rs -> In (k, v) (record_times r) -> v = VDatetime t) /\
  (forall e,
     field_policy op s = Raise e ->
     (exists msg, e = ValueError msg) /\
     (exists x, item_of self op (VDict d) = Raise x) /\
     (times_typed op d ->
      exists msg, item_of self op (VDict d) = Raise (ValueError msg)) /\
     (forall pf log items,
        answered self pf log op items ->
        In (VDict d) items ->
        exists x,
          call self op pf log = (Raise x, log ++ [request_of self pf op])) /\
     (forall pf log pre post rss,
        answered self pf log op (pre ++ VDict d :: post) ->
        mapM (item_of self op) pre = Ok rss ->
        times_typed op d ->
        exists msg,
          call self op pf log =
          (Raise (ValueError msg), log ++ [request_of self pf op]))) /\
  (two_formats op = true ->
     (forall t,
        strptime (VStr s) "%Y-%m-%d %H:%M:%S" = Ok t ->
        field_policy op s = Ok t) /\
     (forall e,
        strptime (VStr s) "%Y-%m-%d %H:%M:%S" = Raise e ->
        field_policy op s = strptime (VStr s) "%Y-%m-%d" /\
        forall t, strptime (VStr s) "%Y-%m-%d" = Ok t -> midnight t)) /\
  (two_formats op = false ->
     field_policy op s = strptime (VStr s) "%Y-%m-%d %H:%M:%S").
Proof.
  intros Hc Hk Hd. pose proof (field_value_str op d k s Hd) as Hfv.
  split; [|split; [|split]].
  - intros rs Hrs.
    destruct (field_policy op s) as [t|e] eqn:E.
    + exists t. split; [reflexivity|]. intros r v Hr Hv.
      pose proof (item_times _ _ _ _ Hc Hrs r k v Hr Hv) as H.
      rewrite Hfv in H. now injection H as <-.
    + destruct (item_raises self op d k e Hc Hk) as [x Hx];
        [now rewrite Hfv|congruence].
  - intros e He.
    assert (Hr : field_value op d k = Raise e) by now rewrite Hfv, He.
    destruct (item_raises self op d k e Hc Hk Hr) as [x Hx].
    split; [eapply field_policy_raises; eauto|].
    assert (Htyped : times_typed op d ->
              exists msg, item_of self op (VDict d) = Raise (ValueError msg)).
    { intros Ht. rewrite item_closed in Hx |- * by assumption.
      destruct (mapM (field_value op d) (time_keys op)) as [vs|e'] eqn:E.
      - destruct (mapM_In_Raise _ _ _ _ Hk Hr) as [e' He']. congruence.
      - apply mapM_Raise_inv in E as (k' & Hk' & E).
        destruct (times_typed_raise _ _ _ _ Ht Hk' E) as [msg ->].
        simpl. eauto. }
    split; [eauto|]. split; [exact Htyped|]. split.
    + intros pf log items Ha Hin. eapply answered_raises; eauto.
    + intros pf log pre post rss Ha Hpre Ht.
      destruct (Htyped Ht) as [msg Hmsg]. exists msg.
      eapply answered_first_raise; eauto.
  - intros Htwo. unfold field_policy. rewrite Htwo. split.
    + now intros t ->.
    + intros e ->. split; [reflexivity|].
      intros t Ht. now apply strptime_date_midnight in Ht.
  - intros Htwo. unfold field_policy. now rewrite Htwo.
Qed.

Lemma C1_timestamp_policy_witness :
  exists t,
    field_policy OpAuroraOutlook "2015-01-15" = Ok t /\
    forall r v,
      In r [AuroraOutlook
              (VDatetime (at_time 2015 1 12 23 18 0))
              (VDatetime (at_time 2015 1 15 0 0 0))
              (VDatetime (at_time 2015 1 17 0 0 0))
              (VStr "coronal mass ejection") (VInt 7) (VStr "mid")
              (VStr "A large active solar region is rotating")] ->
      In ("start_date", v) (record_times r) -> v = VDatetime t.
Proof.
  apply (proj1 (C1_timestamp_policy test_client OpAuroraOutlook
                  example_outlook "start_date" "2015-01-15"
                  (conj eq_refl eq_refl)
                  (or_intror (or_introl eq_refl))
                  eq_refl)).
  reflexivity.
Defined.

(** C1 as stated fails: the [start_time] of this mag alert is present and
    the date-only format parses it to midnight of 2015-02-07, yet
    [get_mag_alert] does not fall back to that format and raises. *)
Lemma C1_mag_alert_has_no_fallback :
  strptime (VStr "2015-02-07") "%Y-%m-%d" = Ok (at_time 2015 2 7 0 0 0) /\
  fst (call test_client OpMagAlert
         (mock (data_response (VList [VDict example_alert_date_only]))) []) =
  Raise (ValueError "time data does not match format").
Proof. split; reflexivity. Qed.

Lemma getitem_str_raises v k e :
  getitem_str v k = Raise e -> e = TypeError \/ e = KeyError (VStr k).
Proof.
  destruct v; simpl; try (intros [= <-]; now left).
  destruct (dict_get k d); [discriminate|]. intros [= <-]. now right.
Qed.

Lemma strptime_raises v f e :
  strptime v f = Raise e -> e = TypeError \/ exists msg, e = ValueError msg.
Proof.
  destruct v; try (intros [= <-]; now left).
  intros H. right. eapply strptime_str_raises; eauto.
Qed.

Lemma day_entry_raises self x e :
  day_entry self x = Raise e ->
  e = TypeError \/ (exists msg, e = ValueError msg) \/
  e = KeyError (VStr "date") \/ e = KeyError (VStr "forecast").
Proof.
  unfold day_entry.
  destruct (getitem_str x "date") as [v|e1] eqn:E1; cbn [rbind].
  - destruct (strptime v (_time_format self)) as [t|e2] eqn:E2; cbn [rbind].
    + destruct (getitem_str x "forecast") as [f|e3] eqn:E3; cbn [rbind];
        [discriminate|].
      intros [= <-]. destruct (getitem_str_raises _ _ _ E3) as [->| ->]; auto.
    + intros [= <-]. destruct (strptime_raises _ _ _ E2) as [->|H]; auto.
  - intros [= <-]. destruct (getitem_str_raises _ _ _ E1) as [->| ->]; auto.
Qed.

Lemma mag_warning_days_raises self x e :
  mag_warning_days self x = Raise e ->
  key_error_on (time_keys OpMagWarning) e = false.
Proof.
  unfold mag_warning_days.
  destruct (getitem_str x "activity") as [a|e1] eqn:E1; cbn [rbind].
  - destruct (py_iter a) as [l|e2] eqn:E2; cbn [rbind].
    + intros H. apply mapM_Raise_inv in H as (y & _ & H).
      apply day_entry_raises in H as [->|[[msg ->]|[->| ->]]]; reflexivity.
    + intros [= <-]. destruct a; try discriminate; now injection E2 as <-.
  - intros [= <-]. destruct (getitem_str_raises _ _ _ E1) as [->| ->];
      reflexivity.
Qed.

Lemma field_value_raises op d k e :
  absent_marker op <> None ->
  field_value op d k = Raise e ->
  e = TypeError \/ exists msg, e = ValueError msg.
Proof.
  intros Hm. unfold field_value. destruct (dict_get k d) as [x|].
  - destruct x; try (intros [= <-]; now left).
    destruct (field_policy op s) eqn:E; [discriminate|].
    intros [= <-]. right. eapply field_policy_raises; eauto.
  - destruct (absent_marker op); [discriminate|congruence].
Qed.

Lemma build_raises self op d vs e :
  absent_marker op <> None ->
  build self op d vs = Raise e ->
  key_error_on (time_keys op) e = false.
Proof.
  intros Hm H.
  destruct op; try (now destruct Hm); cbn [build time_keys] in *;
    repeat (destruct vs as [|? vs]; try (injection H as <-; reflexivity));
    repeat match goal with
    | H : rbind ?x _ = Raise _ |- _ =>
        let E := fresh "E" in
        destruct x eqn:E; cbn [rbind] in H;
        [| injection H as <-;
           first [ apply mag_warning_days_raises in E; exact E
                 | apply getitem_str_raises in E as [->| ->]; reflexivity ] ]
    end; discriminate.
Qed.

(** With a marker, no element fails on the absence of a timestamp. *)
Lemma item_not_time_key_error self op d e :
  constructed self ->
  absent_marker op <> None ->
  item_of self op (VDict d) = Raise e ->
  key_error_on (time_keys op) e = false.
Proof.
  intros Hc Hm. rewrite item_closed by assumption.
  destruct (mapM (field_value op d) (time_keys op)) as [vs|e'] eqn:E;
    cbn [rbind].
  - now apply build_raises.
  - intros [= <-]. apply mapM_Raise_inv in E as (k & _ & E).
    apply field_value_raises in E as [->|[msg ->]]; auto.
Qed.

Lemma mapM_only_Raise {B} (f : string -> result B) l x e :
  In x l ->
  f x = Raise e ->
  (forall y, In y l -> y <> x -> exists z, f y = Ok z) ->
  mapM f l = Raise e.
Proof.
  intros Hin Hx. induction l as [|y l IH]; intros Hothers; [destruct Hin|].
  simpl. destruct (string_dec y x) as [->|Hne].
  - now rewrite Hx.
  - destruct (Hothers y (or_introl eq_refl) Hne) as [z ->].
    destruct Hin as [Heq|Hin]; [congruence|].
    rewrite IH; auto. intros y' Hy'. apply Hothers. now right.
Qed.

(* ===================================================================== *)
(** ** The timestamp fields of the records (C2) *)
(* ===================================================================== *)

(** C2, amended. In every record a call returns, a timestamp field is a
    valid [datetime] or the absent marker of the operation: [""] in the
    aurora records, [None] in [MagAlert] and [MagWarning]; the index records
    have no marker. For the operations with a marker, a timestamp key absent
    from an element gives the marker in the record, and no element ever
    fails with the [KeyError] of a timestamp key. For the index operations
    an element without [valid_time] (or [analysis_time]) fails, hence the
    call; the error is the [KeyError] of that key when the other timestamp
    of the element parses and the elements before it map. *)
Theorem C2_timestamp_fields self :
  constructed self ->
  (forall op pf log rs log' r k v,
     call self op pf log = (Ok rs, log') ->
     In r rs -> In (k, v) (record_times r) ->
     (exists t, v = VDatetime t /\ valid_datetime t = true) \/
     absent_marker op = Some v) /\
  (forall op d k m rs r v,
     absent_marker op = Some m ->
     dict_get k d = None ->
     item_of self op (VDict d) = Ok rs ->
     In r rs -> In (k, v) (record_times r) -> v = m) /\
  (forall op d e,
     absent_marker op <> None ->
     item_of self op (VDict d) = Raise e ->
     key_error_on (time_keys op) e = false) /\
  (forall op d k,
     absent_marker op = None ->
     In k (time_keys op) ->
     dict_get k d = None ->
     (exists e, item_of self op (VDict d) = Raise e) /\
     ((forall k', In k' (time_keys op) -> k' <> k ->
         exists s t, dict_get k' d = Some (VStr s) /\
                     field_policy op s = Ok t) ->
      item_of self op (VDict d) = Raise (KeyError (VStr k))) /\
     (forall pf log items,
        answered self pf log op items ->
        In (VDict d) items ->
        exists x,
          call self op pf log = (Raise x, log ++ [request_of self pf op])) /\
     (forall pf log pre post rss,
        answered self pf log op (pre ++ VDict d :: post) ->
        mapM (item_of self op) pre = Ok rss ->
        (forall k', In k' (time_keys op) -> k' <> k ->
           exists s t, dict_get k' d = Some (VStr s) /\
                       field_policy op s = Ok t) ->
        call self op pf log =
        (Raise (KeyError (VStr k)), log ++ [request_of self pf op]))).
Proof.
  intros Hc. split; [|split; [|split]].
  - intros op pf log rs log' r k v Hcall Hr Hk.
    apply call_Ok_inv in Hcall as [resp Hresp].
    destruct (respond_Ok_inv _ _ _ _ Hresp r Hr) as (elem & rs' & Hi & Hr').
    destruct (item_dict _ _ _ _ Hi) as [d ->].
    pose proof (item_times _ _ _ _ Hc Hi r k v Hr' Hk) as Hfv.
    apply field_value_Ok_inv in Hfv as [[_ Hm]|(s & t & _ & Hp & ->)].
    + now right.
    + left. exists t. split; [reflexivity|].
      now apply field_policy_valid in Hp.
  - intros op d k m rs r v Hm Hd Hi Hr Hk.
    pose proof (item_times _ _ _ _ Hc Hi r k v Hr Hk) as Hfv.
    unfold field_value in Hfv. rewrite Hd, Hm in Hfv. congruence.
  - intros op d e. now apply item_not_time_key_error.
  - intros op d k Hm Hk Hd.
    assert (Hfv : field_value op d k = Raise (KeyError (VStr k))).
    { unfold field_value. now rewrite Hd, Hm. }
    destruct (item_raises self op d k _ Hc Hk Hfv) as [x Hx].
    assert (Hkey : (forall k', In k' (time_keys op) -> k' <> k ->
                      exists s t, dict_get k' d = Some (VStr s) /\
                                  field_policy op s = Ok t) ->
              item_of self op (VDict d) = Raise (KeyError (VStr k))).
    { intros Hothers. rewrite item_closed by assumption.
      rewrite (mapM_only_Raise _ _ k (KeyError (VStr k))); auto.
      intros k' Hk' Hne. destruct (Hothers k' Hk' Hne) as (s & t & Hs & Ht).
      rewrite (field_value_str _ _ _ _ Hs), Ht. simpl. eauto. }
    split; [eauto|]. split; [exact Hkey|]. split.
    + intros pf log items Ha Hin. eapply answered_raises; eauto.
    + intros pf log pre post rss Ha Hpre Hothers.
      eapply answered_first_raise; eauto.
Qed.

Lemma C2_timestamp_fields_witness :
  item_of test_client (OpKIndex (VStr "") (VStr "") VNone)
    (VDict [("index", VInt 2); ("valid_time", VStr "2021-11-21 00:00:00")]) =
  Raise (KeyError (VStr "analysis_time")).
Proof.
  apply (proj1 (proj2
           (proj2 (proj2 (proj2
              (C2_timestamp_fields test_client (conj eq_refl eq_refl))))
              (OpKIndex (VStr "") (VStr "") VNone)
              [("index", VInt 2); ("valid_time", VStr "2021-11-21 00:00:00")]
              "analysis_time" eq_refl (or_intror (or_introl eq_refl))
              eq_refl))).
  intros k' [<-|[<-|[]]] Hne.
  - exists "2021-11-21 00:00:00", (at_time 2021 11 21 0 0 0).
    split; reflexivity.
  - now destruct Hne.
Defined.

(** C2 as stated fails: this a-index reading has no [valid_time], and
    [get_a_index] raises [KeyError] instead of returning a record with an
    absent marker. *)
Lemma C2_index_without_time_raises :
  dict_get "valid_time" [("index", VInt 5)] = None /\
  fst (call test_client (OpAIndex (VStr "") (VStr ""))
         (mock (data_response (VList [VList [VDict [("index", VInt 5)]]])))
         []) =
  Raise (KeyError (VStr "valid_time")).
Proof. split; reflexivity. Qed.

(* ---------------- C7 ---------------- *)
Lemma day_entry_Ok self e s t f :
  constructed self ->
  dict_get "date" e = Some (VStr s) ->
  strptime (VStr s) "%Y-%m-%d" = Ok t ->
  dict_get "forecast" e = Some f ->
  day_entry self (VDict e) = Ok (t, f).
Proof.
  intros [Hd _] Hs Ht Hf. unfold day_entry, getitem_str.
  rewrite Hs, Hd. cbn [rbind]. rewrite Ht. cbn [rbind]. now rewrite Hf.
Qed.

(* ===================================================================== *)
(** ** The activity of a mag warning (C7, C10) *)
(* ===================================================================== *)

(** C7. The [activity] list of a mag-warning element is mapped entry by
    entry: when each entry has a [date] that ["%Y-%m-%d"] parses and a
    [forecast], the result is the list of the (parsed date, forecast) pairs
    in the order of the entries and of the same length, entries of the same
    date included, and it is the [activity] of the record built. The last
    part runs a warning with two entries for 2015-03-02: both are kept. *)
Theorem C7_activity_pairs self d entries pairs :
  constructed self ->
  dict_get "activity" d = Some (VList entries) ->
  Forall2
    (fun entry pair =>
       exists e s,
         entry = VDict e /\
         dict_get "date" e = Some (VStr s) /\
         strptime (VStr s) "%Y-%m-%d" = Ok (fst pair) /\
         dict_get "forecast" e = Some (snd pair))
    entries pairs ->
  mag_warning_days self (VDict d) = Ok pairs /\
  (forall r,
     mag_warning_item self (VDict d) = Ok r ->
     exists issue_time start_date end_date cause comments,
       r = MagWarning issue_time start_date end_date cause pairs comments) /\
  call test_client OpMagWarning
    (mock (data_response (VList [example_warning]))) [] =
  (Ok [MagWarning
         (VDatetime (at_time 2015 3 1 23 18 0))
         (VDatetime (at_time 2015 3 2 0 0 0))
         (VDatetime (at_time 2015 3 3 0 0 0))
         (VStr "coronal hole")
         [(at_time 2015 3 2 0 0 0, VStr "Unsettled to minor storm");
          (at_time 2015 3 2 0 0 0, VStr "Minor storm")]
         (VStr "The effect of the high speed solar wind")],
   [mag_warning_request test_client]).
Proof.
  intros Hc Ha HF.
  assert (Hdays : mag_warning_days self (VDict d) = Ok pairs).
  { unfold mag_warning_days, getitem_str. rewrite Ha. cbn [rbind py_iter].
    apply Forall2_mapM_Ok.
    eapply Forall2_impl; [|exact HF].
    intros entry [t f] (e & s & -> & Hs & Ht & Hf).
    eapply day_entry_Ok; eauto. }
  split; [exact Hdays|]. split; [|reflexivity].
  intros r. unfold mag_warning_item. rewrite Hdays.
  destruct (mag_warning_time_periods self (VDict d)); [|discriminate].
  cbn [rbind].
  destruct (getitem_str (VDict d) "cause"); [|discriminate]. cbn [rbind].
  destruct (getitem_str (VDict d) "comments"); [|discriminate]. cbn [rbind].
  intros [= <-]. eauto 6.
Qed.

Lemma C7_activity_pairs_witness :
  mag_warning_days test_client example_warning =
  Ok [(at_time 2015 3 2 0 0 0, VStr "Unsettled to minor storm");
      (at_time 2015 3 2 0 0 0, VStr "Minor storm")].
Proof.
  refine (proj1 (C7_activity_pairs test_client example_warning_fields
                   example_activity
                   [(at_time 2015 3 2 0 0 0, VStr "Unsettled to minor storm");
                    (at_time 2015 3 2 0 0 0, VStr "Minor storm")]
                   (conj eq_refl eq_refl) eq_refl _)).
  apply Forall2_cons; [do 2 eexists; repeat split; reflexivity|].
  apply Forall2_cons; [do 2 eexists; repeat split; reflexivity|].
  apply Forall2_nil.
Defined.

(* ---------------- C10 ---------------- *)
(** C10. In [get_mag_warning] the [date] of an activity entry is parsed
    with ["%Y-%m-%d"] only. An entry whose [date] is a string that
    ["%Y-%m-%d %H:%M:%S"] parses raises [ValueError]; an entry without
    [date] raises [KeyError]; an entry without [forecast] raises too. No pair
    and no marker is produced: the element fails, and with it every call
    whose response holds the element. *)
Theorem C10_activity_date_only self d entries e :
  constructed self ->
  dict_get "activity" d = Some (VList entries) ->
  In (VDict e) entries ->
  (exists s t, dict_get "date" e = Some (VStr s) /\
               strptime (VStr s) "%Y-%m-%d %H:%M:%S" = Ok t) \/
  dict_get "date" e = None \/ dict_get "forecast" e = None ->
  (exists x, day_entry self (VDict e) = Raise x) /\
  (forall s t,
     dict_get "date" e = Some (VStr s) ->
     strptime (VStr s) "%Y-%m-%d %H:%M:%S" = Ok t ->
     exists msg, day_entry self (VDict e) = Raise (ValueError msg)) /\
  (dict_get "date" e = None ->
   day_entry self (VDict e) = Raise (KeyError (VStr "date"))) /\
  (exists x, mag_warning_item self (VDict d) = Raise x) /\
  (forall pf log items,
     answered self pf log OpMagWarning items ->
     In (VDict d) items ->
     exists x,
       call self OpMagWarning pf log =
       (Raise x, log ++ [mag_warning_request self])).
Proof.
  intros Hc Ha Hin Hbad. pose proof Hc as [Hfd _].
  assert (Hfull : forall s t,
            dict_get "date" e = Some (VStr s) ->
            strptime (VStr s) "%Y-%m-%d %H:%M:%S" = Ok t ->
            exists msg, day_entry self (VDict e) = Raise (ValueError msg)).
  { intros s t Hs Ht. destruct (strptime_full_not_date _ _ Ht) as [msg Hm].
    exists msg. unfold day_entry, getitem_str. rewrite Hs, Hfd. cbn [rbind].
    now rewrite Hm. }
  assert (Hnodate : dict_get "date" e = None ->
            day_entry self (VDict e) = Raise (KeyError (VStr "date"))).
  { intros Hs. unfold day_entry, getitem_str. now rewrite Hs. }
  assert (Hentry : exists x, day_entry self (VDict e) = Raise x).
  { destruct Hbad as [(s & t & Hs & Ht)|[Hs|Hf]].
    - destruct (Hfull s t Hs Ht) as [msg ->]. eauto.
    - rewrite (Hnodate Hs). eauto.
    - unfold day_entry.
      destruct (getitem_str (VDict e) "date"); cbn [rbind]; [|eauto].
      destruct (strptime _ _); cbn [rbind]; [|eauto].
      unfold getitem_str. rewrite Hf. cbn [rbind]. eauto. }
  assert (Hitem : exists x, mag_warning_item self (VDict d) = Raise x).
  { unfold mag_warning_item.
    destruct (mag_warning_time_periods self (VDict d)); cbn [rbind]; [|eauto].
    unfold mag_warning_days, getitem_str. rewrite Ha. cbn [rbind py_iter].
    destruct Hentry as [x Hx].
    destruct (mapM_In_Raise _ _ _ _ Hin Hx) as [x' ->]. cbn [rbind]. eauto. }
  repeat split; auto.
  intros pf log items Hans Hd. destruct Hitem as [x Hx].
  eapply (answered_raises self pf log OpMagWarning); eauto.
  cbn [item_of]. rewrite Hx. reflexivity.
Qed.

Lemma C10_activity_date_only_witness :
  exists msg,
    day_entry test_client
      (VDict [("date", VStr "2015-03-02 00:00:00");
              ("forecast", VStr "Minor storm")]) =
    Raise (ValueError msg).
Proof.
  apply (proj1 (proj2
           (C10_activity_date_only test_client
              [("activity",
                VList [VDict [("date", VStr "2015-03-02 00:00:00");
                              ("forecast", VStr "Minor storm")]])]
              [VDict [("date", VStr "2015-03-02 00:00:00");
                      ("forecast", VStr "Minor storm")]]
              [("date", VStr "2015-03-02 00:00:00");
               ("forecast", VStr "Minor storm")]
              (conj eq_refl eq_refl) eq_refl (or_introl eq_refl)
              (or_introl
                 (ex_intro _ "2015-03-02 00:00:00"
                    (ex_intro _ (at_time 2015 3 2 0 0 0)
                       (conj eq_refl eq_refl))))))
           "2015-03-02 00:00:00" (at_time 2015 3 2 0 0 0) eq_refl eq_refl).
Defined.

(* ---------------- C9 ---------------- *)
(* ===================================================================== *)
(** ** Formatting and parsing back (C9) *)
(* ===================================================================== *)

(** C9, amended. For a naive [datetime] with no microseconds, whose year the
    platform prints with four digits (any year from 1000, or any year where
    the C library pads), formatting it as the request builder does and
    parsing the string as the response mapper does gives the same value;
    and [get_a_index] called with it as [start], on a service that echoes
    [start] back as [valid_time], returns a record with that very time. *)
Theorem C9_round_trip self pf log t end_ :
  constructed self ->
  valid_datetime t = true ->
  microsecond t = 0 ->
  tzinfo t = None ->
  libc_pads_year pf = true \/ 1000 <= year t ->
  strptime
    (VStr (strftime (libc_pads_year pf) t (_time_format_with_minutes self)))
    (_time_format_with_minutes self) = Ok t /\
  (time_arg_ok self end_ = true ->
   (forall req, post pf log req = echo_start req) ->
   call self (OpAIndex (VDatetime t) end_) pf log =
   (Ok [AIndex (VDatetime t) (VInt 0)],
    log ++ [index_request self "a-index"
              (VStr (strftime (libc_pads_year pf) t
                       (_time_format_with_minutes self)))
              (sent self pf end_) (VStr "Australian region")])).
Proof.
  intros Hc Hv Hus Htz Hp. pose proof Hc as [_ Hf].
  assert (Hrt : strptime
            (VStr (strftime (libc_pads_year pf) t
                     (_time_format_with_minutes self)))
            (_time_format_with_minutes self) = Ok t).
  { rewrite Hf. now apply strptime_strftime. }
  split; [exact Hrt|].
  intros He Hecho.
  rewrite call_run by (simpl; now rewrite He).
  rewrite Hecho. cbn [request_of sent].
  unfold echo_start, index_request. cbn [json getitem_str dict_get].
  simpl String.eqb. cbn [rbind].
  unfold respond, index_response. cbn [status_code negb Z.eqb Pos.eqb].
  simpl. unfold index_item. simpl. rewrite Hrt. reflexivity.
Qed.

Lemma C9_round_trip_witness :
  call test_client (OpAIndex (VDatetime (at_time 2021 12 4 9 30 0)) (VStr ""))
    (echo_platform false) [] =
  (Ok [AIndex (VDatetime (at_time 2021 12 4 9 30 0)) (VInt 0)],
   [index_request test_client "a-index" (VStr "2021-12-04 09:30:00")
      (VStr "") (VStr "Australian region")]).
Proof.
  refine (proj2 (C9_round_trip test_client (echo_platform false) []
                   (at_time 2021 12 4 9 30 0) (VStr "")
                   (conj eq_refl eq_refl) eq_refl eq_refl eq_refl _)
                eq_refl (fun req => eq_refl)).
  right. simpl. lia.
Defined.

(** C9 as stated fails: a [datetime] with 500 microseconds is formatted
    without them, and the string parses back to a different value; the same
    through [get_a_index] on the echoing service. *)
Lemma C9_microseconds_lost :
  valid_datetime (mk_datetime 2021 12 4 0 0 0 500 None) = true /\
  strptime
    (VStr (strftime false (mk_datetime 2021 12 4 0 0 0 500 None)
             "%Y-%m-%d %H:%M:%S"))
    "%Y-%m-%d %H:%M:%S" = Ok (mk_datetime 2021 12 4 0 0 0 0 None) /\
  mk_datetime 2021 12 4 0 0 0 0 None <> mk_datetime 2021 12 4 0 0 0 500 None /\
  fst (call test_client
         (OpAIndex (VDatetime (mk_datetime 2021 12 4 0 0 0 500 None))
            (VStr ""))
         (echo_platform false) []) =
  Ok [AIndex (VDatetime (mk_datetime 2021 12 4 0 0 0 0 None)) (VInt 0)].
Proof. repeat split; try reflexivity. discriminate. Qed.

(** The other two conditions of the round trip are needed as well: on glibc
    the year 999 is printed with three digits, which [%Y] does not parse,
    and an aware value comes back naive. *)
Example round_trip_year_999 :
  strftime false (at_time 999 1 2 3 4 5) "%Y-%m-%d %H:%M:%S" =
  "999-01-02 03:04:05" /\
  strptime (VStr "999-01-02 03:04:05") "%Y-%m-%d %H:%M:%S" =
  Raise (ValueError "time data does not match format") /\
  strptime (VStr (strftime true (at_time 999 1 2 3 4 5) "%Y-%m-%d %H:%M:%S"))
    "%Y-%m-%d %H:%M:%S" = Ok (at_time 999 1 2 3 4 5).
Proof. repeat split; reflexivity. Qed.

Example round_trip_aware :
  strptime
    (VStr (strftime false (mk_datetime 2021 12 4 0 0 0 0 (Some 0))
             "%Y-%m-%d %H:%M:%S"))
    "%Y-%m-%d %H:%M:%S" = Ok (mk_datetime 2021 12 4 0 0 0 0 None).
Proof. reflexivity. Qed.

(* ===================================================================== *)
(** ** Requests: how many, when, and what they carry *)
(* ===================================================================== *)

Lemma check_time_arg_bad self pf log arg :
  time_arg_ok self arg = false ->
  check_time_arg self arg pf log =
  (Raise (match arg with
          | VStr _ => ValueError time_range_message
          | _ => TypeError
          end), log).
Proof.
  destruct arg; intros H; simpl in H; try discriminate; try reflexivity.
  apply orb_false_iff in H as [Hne Hbad].
  destruct (strptime (VStr s) (_time_format_with_minutes self)) eqn:E;
    [discriminate|].
  apply String.eqb_neq in Hne.
  eapply check_time_arg_rejects; eauto.
Qed.

Lemma get_index_bad self index_type start end_ location pf log :
  time_arg_ok self start && time_arg_ok self end_ = false ->
  exists e,
    _get_index self index_type start end_ location pf log = (Raise e, log) /\
    (e = ValueError time_range_message \/ e = TypeError).
Proof.
  intros H. unfold _get_index, bind.
  destruct (time_arg_ok self start) eqn:Hs.
  - rewrite (check_time_arg_ok _ _ _ _ Hs). simpl in H.
    rewrite (check_time_arg_bad _ _ _ _ H).
    eexists; split; [reflexivity|]. destruct end_; auto.
  - rewrite (check_time_arg_bad _ _ _ _ Hs).
    eexists; split; [reflexivity|]. destruct start; auto.
Qed.

(** X1. A call issues its one request when its arguments pass the local
    check and none otherwise; whatever was logged before stays. The
    constructor always issues exactly its probe. *)
Theorem requests_issued self op pf log key :
  snd (call self op pf log) =
  (if args_ok self op then log ++ [request_of self pf op] else log) /\
  snd (__init__ key pf log) = log ++ [probe_request default_headers key].
Proof.
  split.
  - destruct (args_ok self op) eqn:E.
    + now rewrite call_run.
    + destruct op; simpl in E |- *; try discriminate;
        unfold get_a_index, get_k_index, get_dst_index;
        try destruct location;
        match goal with
        | |- snd (_get_index ?s ?i ?a ?b ?l ?p ?g) = _ =>
            destruct (get_index_bad s i a b l p g E) as (e & -> & _)
        end; reflexivity.
  - unfold __init__, _verify_api_key, bind, requests_post, lift, ret.
    destruct (post pf log _) as [r|]; [|reflexivity].
    destruct (status_code r =? 403); [reflexivity|].
    destruct (raise_for_status r); reflexivity.
Qed.



(** X3. An exception of [requests.post] itself (no connection, timeout) is
    not caught: it leaves the call, and the constructor, as it is. *)
Theorem transport_error_propagates self op pf log key e :
  (args_ok self op = true ->
   post pf log (request_of self pf op) = Raise e ->
   call self op pf log = (Raise e, log ++ [request_of self pf op])) /\
  (post pf log (probe_request default_headers key) = Raise e ->
   __init__ key pf log =
   (Raise e, log ++ [probe_request default_headers key])).
Proof.
  split.
  - intros Hok Hpost. now rewrite call_run, Hpost.
  - intros Hpost.
    unfold __init__, _verify_api_key, bind, requests_post.
    now rewrite Hpost.
Qed.

Lemma transport_error_propagates_witness :
  call test_client OpMagAlert unreachable [] =
  (Raise Timeout, [mag_alert_request test_client]).
Proof.
  apply (proj1 (transport_error_propagates test_client OpMagAlert
                  unreachable [] VNone Timeout) eq_refl eq_refl).
Defined.

(* ===================================================================== *)
(** ** Elements and records *)
(* ===================================================================== *)

Lemma rbind_assoc {A B C} (m : result A) (f : A -> result B)
  (g : B -> result C) :
  rbind (rbind m f) g = rbind m (fun a => rbind (f a) g).
Proof. destruct m; reflexivity. Qed.

Ltac crack_ok :=
  repeat first
    [ rewrite rbind_assoc
    | match goal with
      | |- rbind ?x _ = Ok _ -> _ =>
          destruct x; cbn [rbind]; [|discriminate]
      end ].

(** An element that maps gives one record, of the operation's class. *)
Lemma item_one_record self op elem rs :
  item_of self op elem = Ok rs ->
  exists r, rs = [r] /\ returns op r = true.
Proof.
  destruct op; cbn [item_of];
    unfold aurora_item, mag_alert_item, mag_warning_item, index_item;
    simpl String.eqb; cbv iota; crack_ok; intros [= <-];
    eexists; split; reflexivity.
Qed.

Lemma mapM_one_record self op items rss :
  mapM (item_of self op) items = Ok rss ->
  Forall2 (fun elem r => item_of self op elem = Ok [r]) items
    (List.concat rss) /\
  Forall (fun r => returns op r = true) (List.concat rss).
Proof.
  intros H. apply mapM_Ok_Forall2 in H.
  induction H as [|elem rs items rss Hrs _ [IH1 IH2]]; simpl.
  - split; constructor.
  - destruct (item_one_record _ _ _ _ Hrs) as (r & -> & Hr). simpl.
    split; constructor; auto.
Qed.

(** X4. What a call returns is a list of the named tuple of its own
    operation: [get_aurora_outlook] returns [AuroraOutlook]s only, and so
    on for the eight operations. *)
Theorem records_of_the_operation self op pf log rs log' :
  call self op pf log = (Ok rs, log') ->
  Forall (fun r => returns op r = true) rs.
Proof.
  intros H. apply call_Ok_inv in H as [resp H].
  apply Forall_forall. intros r Hr.
  destruct (respond_Ok_inv _ _ _ _ H r Hr) as (elem & rs' & Hi & Hr').
  destruct (item_one_record _ _ _ _ Hi) as (r' & -> & Hk).
  destruct Hr' as [<-|[]]. exact Hk.
Qed.

Lemma records_of_the_operation_witness :
  Forall (fun r => returns (OpAIndex (VStr "") (VStr "")) r = true)
    [AIndex (VDatetime (at_time 2021 12 4 0 0 0)) (VInt 5);
     AIndex (VDatetime (at_time 2021 12 5 0 0 0)) (VInt 6)].
Proof.
  apply (records_of_the_operation test_client (OpAIndex (VStr "") (VStr ""))
           (mock (data_response example_a2)) [] _
           [index_request test_client "a-index" (VStr "") (VStr "")
              (VStr "Australian region")]).
  reflexivity.
Defined.

(** X5. When the request is answered with the elements [items], the call
    returns one record per element, in the order of the elements: the list
    of records has the length of [items] and its n-th record is the one
    built from the n-th element. *)
Theorem one_record_per_element self op pf log items rs log' :
  answered self pf log op items ->
  call self op pf log = (Ok rs, log') ->
  Forall2 (fun elem r => item_of self op elem = Ok [r]) items rs /\
  List.length rs = List.length items.
Proof.
  intros Ha H. rewrite (answered_call _ _ _ _ _ Ha) in H.
  destruct (mapM (item_of self op) items) as [rss|] eqn:E; [|discriminate].
  injection H as <- _.
  destruct (mapM_one_record _ _ _ _ E) as [HF _].
  split; [exact HF|]. symmetry. eapply Forall2_length; eauto.
Qed.

Lemma answered_mock self op data items r :
  args_ok self op = true ->
  r = data_response data ->
  elements op data = Some items ->
  answered self (mock r) [] op items.
Proof.
  intros Hok -> He. split; [exact Hok|].
  exists (data_response data), [("data", data)], data. repeat split. exact He.
Qed.

Lemma one_record_per_element_witness :
  Forall2
    (fun elem r =>
       item_of test_client (OpAIndex (VStr "") (VStr "")) elem = Ok [r])
    [VDict [("index", VInt 5); ("valid_time", VStr "2021-12-04 00:00:00")];
     VDict [("index", VInt 6); ("valid_time", VStr "2021-12-05 00:00:00")]]
    [AIndex (VDatetime (at_time 2021 12 4 0 0 0)) (VInt 5);
     AIndex (VDatetime (at_time 2021 12 5 0 0 0)) (VInt 6)].
Proof.
  refine (proj1 (one_record_per_element test_client
                   (OpAIndex (VStr "") (VStr ""))
                   (mock (data_response example_a2)) [] _ _
                   [index_request test_client "a-index" (VStr "") (VStr "")
                      (VStr "Australian region")] _ _)).
  - apply (answered_mock test_client (OpAIndex (VStr "") (VStr ""))
             example_a2); reflexivity.
  - reflexivity.
Defined.

(** X6. The elements are mapped in order and the first one that fails
    ends the call with its own error; what follows it in the response is
    not examined. *)
Theorem first_failure_decides self pf log op pre x post post' rss e :
  answered self pf log op (pre ++ x :: post) ->
  mapM (item_of self op) pre = Ok rss ->
  item_of self op x = Raise e ->
  call self op pf log = (Raise e, log ++ [request_of self pf op]) /\
  mapM (item_of self op) (pre ++ x :: post') = Raise e.
Proof.
  intros Ha Hpre He. split.
  - rewrite (answered_call _ _ _ _ _ Ha).
    now rewrite (mapM_first_Raise _ _ _ _ _ _ Hpre He).
  - eapply mapM_first_Raise; eauto.
Qed.

Lemma first_failure_decides_witness :
  call test_client OpMagAlert
    (mock (data_response
       (VList [VDict [("g_scale", VInt 1); ("description", VStr "minor")];
               VDict example_alert_date_only;
               VInt 7])))
    [] =
  (Raise (ValueError "time data does not match format"),
   [mag_alert_request test_client]).
Proof.
  refine (proj1 (first_failure_decides test_client
           (mock (data_response
              (VList [VDict [("g_scale", VInt 1);
                             ("description", VStr "minor")];
                      VDict example_alert_date_only;
                      VInt 7])))
           [] OpMagAlert
           [VDict [("g_scale", VInt 1); ("description", VStr "minor")]]
           (VDict example_alert_date_only) [VInt 7] []
           [[MagAlert VNone VNone (VInt 1) (VStr "minor")]]
           (ValueError "time data does not match format") _ _ _)).
  - apply (answered_mock test_client OpMagAlert
             (VList [VDict [("g_scale", VInt 1);
                            ("description", VStr "minor")];
                     VDict example_alert_date_only;
                     VInt 7])); reflexivity.
  - reflexivity.
  - reflexivity.
Defined.

Lemma non_object_item self op elem :
  is_dict elem = false -> item_of self op elem = Raise TypeError.
Proof. destruct elem; try discriminate; destruct op; reflexivity. Qed.

(** X7. An element that is not a JSON object (a number, a string, a list,
    [null]) raises [TypeError] in every operation, and so does the call
    when the elements before it in the response map. *)
Theorem non_object_element self op x :
  is_dict x = false ->
  item_of self op x = Raise TypeError /\
  (forall pf log pre post rss,
     answered self pf log op (pre ++ x :: post) ->
     mapM (item_of self op) pre = Ok rss ->
     call self op pf log =
     (Raise TypeError, log ++ [request_of self pf op])).
Proof.
  intros Hx. pose proof (non_object_item self op x Hx) as H.
  split; [exact H|].
  intros pf log pre post rss Ha Hpre.
  eapply answered_first_raise; eauto.
Qed.

Lemma non_object_element_witness :
  item_of test_client OpAuroraWatch VNone = Raise TypeError.
Proof.
  apply (proj1 (non_object_element test_client OpAuroraWatch VNone eq_refl)).
Defined.

(* ===================================================================== *)
(** ** A [datetime] argument and its string *)
(* ===================================================================== *)

Lemma strftime_whole_seconds pads t f :
  strftime pads (whole_seconds t) f = strftime pads t f.
Proof.
  remember (String.length f) as n eqn:Hn.
  revert f Hn. induction n as [n IH] using (well_founded_induction
    (Wf_nat.well_founded_ltof _ (fun n : nat => n))).
  intros f Hn. destruct f as [|c r]; [reflexivity|].
  unfold strftime; fold strftime.
  destruct (Ascii.eqb c "%").
  - destruct r as [|d r']; [reflexivity|].
    rewrite (IH (String.length r')) with (f := r');
      [|subst n; unfold Wf_nat.ltof; simpl; lia | reflexivity].
    destruct (directive_of d) as [[]|]; reflexivity.
  - rewrite (IH (String.length r)) with (f := r);
      [reflexivity | subst n; unfold Wf_nat.ltof; simpl; lia | reflexivity].
Qed.

Lemma strptime_strftime_whole pads t :
  valid_datetime t = true ->
  pads = true \/ 1000 <= year t ->
  strptime (VStr (strftime pads t "%Y-%m-%d %H:%M:%S")) "%Y-%m-%d %H:%M:%S"
  = Ok (whole_seconds t).
Proof.
  intros Hv Hp. rewrite <- strftime_whole_seconds.
  apply strptime_strftime; try reflexivity; [|exact Hp].
  unfold valid_datetime in *. simpl.
  apply andb_true_iff in Hv as [Hd Ht]. rewrite Hd. simpl.
  unfold valid_hms in *. 
  repeat (apply andb_true_iff in Ht as [Ht ?]).
  repeat (apply andb_true_iff; split); auto.
Qed.

Lemma formatted_time_arg_ok self pf t :
  constructed self ->
  valid_datetime t = true ->
  libc_pads_year pf = true \/ 1000 <= year t ->
  time_arg_ok self (sent self pf (VDatetime t)) = true /\
  sent self pf (sent self pf (VDatetime t)) = sent self pf (VDatetime t).
Proof.
  intros [_ Hf] Hv Hp. cbn [sent time_arg_ok]. rewrite Hf.
  rewrite (strptime_strftime_whole _ _ Hv Hp).
  split; [apply orb_true_r | reflexivity].
Qed.

(** X8. Passing a [datetime] as [start] or [end] is the same as passing the
    string the format with minutes prints for it: the same request is sent
    and the same result comes back. Its microseconds and its time zone
    never reach the service. This holds for a year the platform prints with
    four digits (from 1000 on, or a C library that pads). *)
Theorem datetime_argument_as_string self pf log index_type t other location :
  constructed self ->
  valid_datetime t = true ->
  libc_pads_year pf = true \/ 1000 <= year t ->
  let s := VStr (strftime (libc_pads_year pf) t "%Y-%m-%d %H:%M:%S") in
  _get_index self index_type (VDatetime t) other location pf log =
  _get_index self index_type s other location pf log /\
  _get_index self index_type other (VDatetime t) location pf log =
  _get_index self index_type other s location pf log /\
  _get_index self index_type (VDatetime (whole_seconds t)) other location
    pf log =
  _get_index self index_type (VDatetime t) other location pf log.
Proof.
  intros Hc Hv Hp s.
  destruct (formatted_time_arg_ok self pf t Hc Hv Hp) as [Hok Hs].
  pose proof Hc as [_ Hf].
  assert (Es : sent self pf (VDatetime t) = s)
    by (cbn [sent]; now rewrite Hf).
  rewrite Es in Hok, Hs.
  assert (Hchk : forall l, check_time_arg self (VDatetime t) pf l =
                           check_time_arg self s pf l).
  { intros l. rewrite (check_time_arg_ok self pf l s Hok), Hs.
    rewrite <- Es. now apply check_time_arg_ok. }
  split; [|split].
  - unfold _get_index, bind. now rewrite Hchk.
  - unfold _get_index, bind.
    destruct (check_time_arg self other pf log) as [[v|e] l];
      [now rewrite Hchk | reflexivity].
  - unfold _get_index, bind. cbn [check_time_arg].
    unfold bind, pads_year, ret. now rewrite strftime_whole_seconds.
Qed.

Lemma datetime_argument_as_string_witness :
  _get_index test_client "k-index"
    (VDatetime (mk_datetime 2021 12 4 9 30 0 250000 (Some 600)))
    (VStr "") (VStr "Hobart")
    (mock (data_response (VList []))) [] =
  _get_index test_client "k-index" (VStr "2021-12-04 09:30:00")
    (VStr "") (VStr "Hobart")
    (mock (data_response (VList []))) [].
Proof.
  refine (proj1 (datetime_argument_as_string test_client
                   (mock (data_response (VList []))) [] "k-index"
                   (mk_datetime 2021 12 4 9 30 0 250000 (Some 600))
                   (VStr "") (VStr "Hobart") _ _ _)).
  - split; reflexivity.
  - reflexivity.
  - right. simpl. lia.
Defined.

(* ===================================================================== *)
(** ** The copied fields of a record *)
(* ===================================================================== *)

Ltac crack_getitem :=
  repeat match goal with
  | |- context [getitem_str (VDict ?d) ?k] =>
      unfold getitem_str at 1;
      let E := fresh "E" in
      destruct (dict_get k d) eqn:E; cbn [rbind]; [|discriminate]
  end.

Lemma build_scalars self op d vs rs :
  build self op d vs = Ok rs ->
  forall r k v, In r rs -> In (k, v) (record_scalars r) ->
                dict_get k d = Some v.
Proof.
  destruct op;
    do 6 (try destruct vs as [|? vs]); cbn [build]; try discriminate;
    try (destruct (mag_warning_days self (VDict d)); cbn [rbind];
         [|discriminate]);
    crack_getitem; intros [= <-] r k x [<-|[]]; cbn [record_scalars In];
    intuition congruence.
Qed.

(** X9. The fields of a record that are not timestamps are the element's
    own values under the same keys, of whatever JSON type, unchanged:
    [cause], [k_aus], [lat_band], [comments], [description], [g_scale],
    [index]. *)
Theorem scalar_fields_copied self op d rs r k v :
  constructed self ->
  item_of self op (VDict d) = Ok rs ->
  In r rs -> In (k, v) (record_scalars r) ->
  dict_get k d = Some v.
Proof.
  intros Hc H. rewrite (item_closed _ _ _ Hc) in H.
  destruct (mapM (field_value op d) (time_keys op)) as [vs|];
    [|discriminate].
  cbn [rbind] in H. eapply build_scalars; eauto.
Qed.

Lemma scalar_fields_copied_witness :
  dict_get "k_aus" example_outlook = Some (VInt 7).
Proof.
  refine (scalar_fields_copied test_client OpAuroraOutlook example_outlook
            _ _ "k_aus" (VInt 7) _ eq_refl _ _).
  - split; reflexivity.
  - left. reflexivity.
  - right. left. reflexivity.
Defined.

Lemma mapM_length {A B} (f : A -> result B) l ys :
  mapM f l = Ok ys -> List.length ys = List.length l.
Proof.
  intros H. apply mapM_Ok_Forall2 in H. symmetry.
  eapply Forall2_length; eauto.
Qed.

Lemma mag_warning_days_activity self d days :
  mag_warning_days self (VDict d) = Ok days ->
  dict_get "activity" d <> None.
Proof.
  unfold mag_warning_days, getitem_str.
  destruct (dict_get "activity" d); [discriminate|].
  cbn [rbind]. discriminate.
Qed.

Lemma build_required self op d vs rs :
  build self op d vs = Ok rs ->
  forall k, In k (required_keys op) -> dict_get k d <> None.
Proof.
  destruct op;
    do 6 (try destruct vs as [|? vs]); cbn [build]; try discriminate;
    try (destruct (mag_warning_days self (VDict d)) eqn:Ed; cbn [rbind];
         [apply mag_warning_days_activity in Ed | discriminate]);
    crack_getitem; intros _ k Hin; cbn [required_keys In] in Hin;
    intuition (subst; congruence).
Qed.

Lemma build_missing self op d vs k :
  In k (required_keys op) ->
  dict_get k d = None ->
  exists e, build self op d vs = Raise e.
Proof.
  intros Hin Hk.
  destruct (build self op d vs) as [rs|e] eqn:E; [|eauto].
  now destruct (build_required _ _ _ _ _ E k Hin).
Qed.

(** X10. An element that lacks one of the keys its operation reads by a
    plain subscript cannot be mapped: the element raises, and so does every
    call whose response holds it. No record is built with a default in
    place of the missing value. *)
Theorem missing_field_raises self op d k :
  constructed self ->
  In k (required_keys op) ->
  dict_get k d = None ->
  (exists e, item_of self op (VDict d) = Raise e) /\
  (forall pf log items,
     answered self pf log op items -> In (VDict d) items ->
     exists e, call self op pf log =
               (Raise e, log ++ [request_of self pf op])).
Proof.
  intros Hc Hin Hk.
  assert (H : exists e, item_of self op (VDict d) = Raise e).
  { rewrite (item_closed _ _ _ Hc).
    destruct (mapM (field_value op d) (time_keys op)) as [vs|e];
      cbn [rbind]; [|eauto].
    exact (build_missing self op d vs k Hin Hk). }
  split; [exact H|].
  intros pf log items Ha Hi. destruct H as [e He].
  eapply answered_raises; eauto.
Qed.

Lemma missing_field_raises_witness :
  exists e,
    item_of test_client OpMagAlert
      (VDict [("start_time", VStr "2022-01-27 12:00:00");
              ("valid_until", VStr "2022-01-28 12:00:00");
              ("description", VStr "minor")]) = Raise e.
Proof.
  refine (proj1 (missing_field_raises test_client OpMagAlert
            [("start_time", VStr "2022-01-27 12:00:00");
             ("valid_until", VStr "2022-01-28 12:00:00");
             ("description", VStr "minor")] "g_scale" _ _ _)).
  - split; reflexivity.
  - left. reflexivity.
  - reflexivity.
Defined.

(** X11. A timestamp key bound to something that is not a string, [null]
    included, is not treated as absent: the element raises in every
    operation that reads the key, and so does every call whose response
    holds the element. *)
Theorem non_string_timestamp_raises self op d k v :
  constructed self ->
  In k (time_keys op) ->
  dict_get k d = Some v ->
  (forall s, v <> VStr s) ->
  field_value op d k = Raise TypeError /\
  (exists e, item_of self op (VDict d) = Raise e) /\
  (forall pf log items,
     answered self pf log op items -> In (VDict d) items ->
     exists e, call self op pf log =
               (Raise e, log ++ [request_of self pf op])).
Proof.
  intros Hc Hin Hk Hv.
  assert (Hf : field_value op d k = Raise TypeError).
  { unfold field_value. rewrite Hk.
    destruct v; try reflexivity. now destruct (Hv s). }
  destruct (item_raises self op d k TypeError Hc Hin Hf) as [e He].
  split; [exact Hf|]. split; [eauto|].
  intros pf log items Ha Hi. eapply answered_raises; eauto.
Qed.

Lemma non_string_timestamp_raises_witness :
  exists e,
    item_of test_client OpAuroraAlert
      (VDict [("start_time", VNone); ("k_aus", VInt 6);
              ("lat_band", VStr "high"); ("description", VStr "in progress")])
    = Raise e.
Proof.
  refine (proj1 (proj2 (non_string_timestamp_raises test_client OpAuroraAlert
            [("start_time", VNone); ("k_aus", VInt 6);
             ("lat_band", VStr "high"); ("description", VStr "in progress")]
            "start_time" VNone _ _ _ _))).
  - split; reflexivity.
  - simpl. auto.
  - reflexivity.
  - discriminate.
Defined.

(* ===================================================================== *)
(** ** Where records come from *)
(* ===================================================================== *)

Lemma mapM_items_dicts self op items rss :
  mapM (item_of self op) items = Ok rss ->
  Forall (fun x => is_dict x = true) items.
Proof.
  intros H. apply mapM_Ok_Forall2 in H.
  induction H as [|x rs items rss Hx _ IH]; constructor; [|exact IH].
  destruct (item_dict _ _ _ _ Hx) as [d ->]. reflexivity.
Qed.

Lemma py_iter_dicts d items :
  py_iter d = Ok items ->
  Forall (fun x => is_dict x = true) items ->
  items <> [] ->
  d = VList items.
Proof.
  destruct d; simpl; try discriminate; intros [= <-] HF Hne.
  - exfalso. destruct (chars s); simpl in *; [congruence|].
    inversion HF; subst. discriminate.
  - reflexivity.
  - exfalso. destruct d; simpl in *; [congruence|].
    inversion HF; subst. discriminate.
Qed.

(** X12. Records come from nowhere else than a 200 answer whose [data]
    holds a list of elements: a call that returns a non-empty list has
    passed the local check, issued its one request, and was answered with
    as many elements as it returns records. *)
Theorem records_need_an_answer self op pf log rs log' :
  call self op pf log = (Ok rs, log') ->
  rs <> [] ->
  args_ok self op = true /\
  log' = log ++ [request_of self pf op] /\
  exists items,
    answered self pf log op items /\
    List.length items = List.length rs.
Proof.
  intros H Hne.
  assert (Hok : args_ok self op = true).
  { destruct (args_ok self op) eqn:E; [reflexivity|]. exfalso.
    destruct op; simpl in E, H; try discriminate;
      unfold get_a_index, get_k_index, get_dst_index in H;
      try destruct location;
      match type of H with
      | _get_index ?s ?i ?a ?b ?l ?p ?g = _ =>
          destruct (get_index_bad s i a b l p g E) as (e & He & _);
          rewrite He in H; discriminate
      end. }
  rewrite (call_run _ _ _ _ Hok) in H.
  injection H as H <-.
  split; [exact Hok|]. split; [reflexivity|].
  destruct (post pf log (request_of self pf op)) as [r|] eqn:Hpost;
    [|discriminate].
  cbn [rbind] in H. rewrite respond_shape in H.
  destruct (status_code r =? 200) eqn:Hst; [|
    cbn [negb] in H; destruct (response_json r); discriminate].
  cbn [negb] in H. apply Z.eqb_eq in Hst.
  unfold response_json in H.
  destruct (content r) as [j|] eqn:Hc; [|discriminate].
  cbn [rbind] in H.
  destruct j as [| | | | | |j|]; try discriminate.
  unfold getitem_str in H.
  destruct (dict_get "data" j) as [data|] eqn:Hd; [|discriminate].
  cbn [rbind] in H.
  destruct (py_truthy data) eqn:Ht; [|injection H as <-; congruence].
  destruct (if nested op then getitem_int data 0 else Ok data)
    as [d|] eqn:Hn; [|discriminate].
  cbn [rbind] in H.
  destruct (py_iter d) as [items|] eqn:Hi; [|discriminate].
  cbn [rbind] in H.
  destruct (mapM (item_of self op) items) as [rss|] eqn:Hm; [|discriminate].
  injection H as <-.
  destruct (mapM_one_record _ _ _ _ Hm) as [HF _].
  pose proof (Forall2_length HF) as Hlen.
  assert (Hitems : items <> []).
  { intros ->. destruct (List.concat rss); [congruence | discriminate]. }
  pose proof (py_iter_dicts _ _ Hi (mapM_items_dicts _ _ _ _ Hm) Hitems)
    as ->.
  exists items. split; [|exact Hlen].
  split; [exact Hok|]. exists r, j, data. repeat split; auto.
  destruct (nested op) eqn:Hnest.
  - destruct data; simpl in Hn; try discriminate.
    + destruct (nth_py (chars s) 0); discriminate.
    + unfold nth_py in Hn. simpl in Hn.
      destruct l as [|x l]; [discriminate|]. simpl in Hn.
      injection Hn as ->. simpl. rewrite Hnest. reflexivity.
  - injection Hn as ->. destruct items; [congruence|].
    simpl. rewrite Hnest. reflexivity.
Qed.

Lemma records_need_an_answer_witness :
  exists items,
    answered test_client (mock (data_response example_a2)) []
      (OpAIndex (VStr "") (VStr "")) items /\
    List.length items = 2%nat.
Proof.
  refine (proj2 (proj2 (records_need_an_answer test_client
            (OpAIndex (VStr "") (VStr ""))
            (mock (data_response example_a2)) []
            [AIndex (VDatetime (at_time 2021 12 4 0 0 0)) (VInt 5);
             AIndex (VDatetime (at_time 2021 12 5 0 0 0)) (VInt 6)]
            [index_request test_client "a-index" (VStr "") (VStr "")
               (VStr "Australian region")] _ _))).
  - reflexivity.
  - discriminate.
Defined.

(* ===================================================================== *)
(** ** The activity of a returned warning *)
(* ===================================================================== *)

Lemma day_entry_Ok_inv self x t f :
  day_entry self x = Ok (t, f) ->
  exists e s,
    x = VDict e /\ dict_get "date" e = Some (VStr s) /\
    strptime (VStr s) (_time_format self) = Ok t /\
    dict_get "forecast" e = Some f.
Proof.
  unfold day_entry. destruct x; simpl; try discriminate.
  destruct (dict_get "date" d) as [date|] eqn:Ed; [|discriminate].
  cbn [rbind].
  destruct (strptime date (_time_format self)) as [t'|] eqn:Es;
    [|discriminate].
  cbn [rbind].
  destruct (dict_get "forecast" d) as [f'|] eqn:Ef; [|discriminate].
  cbn [rbind]. intros [= <- <-].
  destruct (strptime_Ok_inv _ _ _ Es) as (s & c & -> & _).
  exists d, s. auto.
Qed.

(** X13. In a [MagWarning] that was returned, [activity] has one pair per
    entry of the element's [activity], in the order of the entries; each
    pair holds the entry's [forecast] unchanged and the entry's [date] as a
    valid naive [datetime] at midnight. *)
Theorem warning_activity_dates self d issue_time start_date end_date cause
  days comments :
  constructed self ->
  mag_warning_item self (VDict d) =
  Ok (MagWarning issue_time start_date end_date cause days comments) ->
  (exists activity entries,
     dict_get "activity" d = Some activity /\
     py_iter activity = Ok entries /\
     Forall2
       (fun entry pair =>
          exists e s,
            entry = VDict e /\
            dict_get "date" e = Some (VStr s) /\
            strptime (VStr s) "%Y-%m-%d" = Ok (fst pair) /\
            dict_get "forecast" e = Some (snd pair))
       entries days) /\
  Forall (fun pair => valid_datetime (fst pair) = true /\
                      midnight (fst pair) /\ tzinfo (fst pair) = None)
    days.
Proof.
  intros [Hf _]. unfold mag_warning_item.
  destruct (mag_warning_time_periods self (VDict d)); [|discriminate].
  cbn [rbind].
  destruct (mag_warning_days self (VDict d)) as [days'|] eqn:Ed;
    [|discriminate].
  cbn [rbind].
  destruct (getitem_str (VDict d) "cause"); [|discriminate]. cbn [rbind].
  destruct (getitem_str (VDict d) "comments"); [|discriminate].
  cbn [rbind]. intros [= _ _ _ _ <- _].
  revert Ed. unfold mag_warning_days, getitem_str.
  destruct (dict_get "activity" d) as [activity|]; [|discriminate].
  cbn [rbind].
  destruct (py_iter activity) as [entries|] eqn:Hi; [|discriminate].
  cbn [rbind]. intros Hm. apply mapM_Ok_Forall2 in Hm.
  assert (HF : Forall2
       (fun entry pair =>
          exists e s,
            entry = VDict e /\
            dict_get "date" e = Some (VStr s) /\
            strptime (VStr s) "%Y-%m-%d" = Ok (fst pair) /\
            dict_get "forecast" e = Some (snd pair))
       entries days').
  { revert Hm. apply Forall2_impl. intros x [t f] Hx.
    destruct (day_entry_Ok_inv _ _ _ _ Hx) as (e & s & -> & H1 & H2 & H3).
    rewrite Hf in H2. exists e, s. auto. }
  split; [exists activity, entries; repeat split; assumption|].
  clear Hm Hi. induction HF as [|x p l l' Hx _ IH]; constructor; [|exact IH].
  destruct Hx as (e & s & _ & _ & Hs & _).
  destruct (strptime_date_midnight _ _ Hs) as [Hmid Htz].
  destruct (strptime_naive _ _ _ Hs) as (Hv & _ & _). auto.
Qed.

Lemma warning_activity_dates_witness :
  Forall (fun pair => valid_datetime (fst pair) = true /\
                      midnight (fst pair) /\ tzinfo (fst pair) = None)
    [(at_time 2015 3 2 0 0 0, VStr "Unsettled to minor storm");
     (at_time 2015 3 2 0 0 0, VStr "Minor storm")].
Proof.
  refine (proj2 (warning_activity_dates test_client example_warning_fields
            _ _ _ _ _ _ _ _)).
  - split; reflexivity.
  - reflexivity.
Defined.

(* ===================================================================== *)
(** ** Answers that are not the expected one *)
(* ===================================================================== *)

(** X14. 200 is the only status an operation accepts: any other one, the
    other 2xx and the 3xx included, makes the call raise after its one
    request, whatever the body holds. The error is [HTTPError] with the
    decoded body, or the decoding error when the body is not JSON. *)
Theorem only_200_is_accepted self pf log op r :
  args_ok self op = true ->
  post pf log (request_of self pf op) = Ok r ->
  status_code r <> 200 ->
  exists e,
    call self op pf log = (Raise e, log ++ [request_of self pf op]) /\
    (forall body, content r = Some body -> e = HTTPError body) /\
    (content r = None -> e = JSONDecodeError).
Proof.
  intros Hok Hpost Hst.
  rewrite (non_200_raises _ _ _ _ _ Hok Hpost Hst).
  eexists. split; [reflexivity|].
  split; [intros body ->; reflexivity | intros ->; reflexivity].
Qed.

Lemma only_200_is_accepted_witness :
  exists e,
    call test_client OpMagWarning
      (mock (mk_response 204 (Some (VDict [("data", VList [])])))) [] =
    (Raise e, [mag_warning_request test_client]) /\
    (forall body,
       Some (VDict [("data", VList [])]) = Some body -> e = HTTPError body) /\
    (Some (VDict [("data", VList [])]) = None -> e = JSONDecodeError).
Proof.
  refine (only_200_is_accepted test_client
            (mock (mk_response 204 (Some (VDict [("data", VList [])])))) []
            OpMagWarning (mk_response 204 (Some (VDict [("data", VList [])])))
            _ _ _).
  - reflexivity.
  - reflexivity.
  - simpl. lia.
Defined.

Lemma call_200 self pf log op r :
  args_ok self op = true ->
  post pf log (request_of self pf op) = Ok r ->
  status_code r = 200 ->
  call self op pf log =
  (rbind (response_json r) (fun j =>
   rbind (getitem_str j "data") (fun data =>
   if py_truthy data then
     rbind (if nested op then getitem_int data 0 else Ok data) (fun d =>
     rbind (py_iter d) (fun items =>
     rbind (mapM (item_of self op) items) (fun rs => Ok (List.concat rs))))
   else Ok [])),
   log ++ [request_of self pf op]).
Proof.
  intros Hok Hpost Hst.
  rewrite (call_run _ _ _ _ Hok), Hpost. cbn [rbind].
  rewrite respond_shape, Hst. reflexivity.
Qed.

(** X15. A 200 answer whose body is not what the mapper expects makes the
    call raise: the decoding error for a body that is not JSON,
    [TypeError] for a JSON body that is not an object, and [TypeError] for
    a [data] that is a non-zero number or [true]. None of them is turned
    into an empty result. *)
Theorem malformed_body_raises self pf log op r :
  args_ok self op = true ->
  post pf log (request_of self pf op) = Ok r ->
  status_code r = 200 ->
  (content r = None ->
   call self op pf log =
   (Raise JSONDecodeError, log ++ [request_of self pf op])) /\
  (forall v, content r = Some v -> is_dict v = false ->
   call self op pf log =
   (Raise TypeError, log ++ [request_of self pf op])) /\
  (forall j data,
     content r = Some (VDict j) -> dict_get "data" j = Some data ->
     is_scalar data = true -> py_truthy data = true ->
     call self op pf log =
     (Raise TypeError, log ++ [request_of self pf op])).
Proof.
  intros Hok Hpost Hst. rewrite (call_200 _ _ _ _ _ Hok Hpost Hst).
  unfold response_json. repeat split.
  - intros ->. reflexivity.
  - intros v -> Hv. destruct v; try discriminate; reflexivity.
  - intros j data -> Hd Hs Ht. cbn [rbind getitem_str]. rewrite Hd.
    cbn [rbind]. rewrite Ht.
    destruct data; try discriminate; destruct (nested op); reflexivity.
Qed.

Lemma malformed_body_raises_witness :
  call test_client OpAuroraAlert
    (mock (mk_response 200 (Some (VList [])))) [] =
  (Raise TypeError, [aurora_request test_client "alert"]).
Proof.
  refine (proj1 (proj2 (malformed_body_raises test_client
            (mock (mk_response 200 (Some (VList [])))) [] OpAuroraAlert
            (mk_response 200 (Some (VList []))) _ _ _))
            (VList []) _ _); reflexivity.
Defined.

(** X16. The two layouts of [data] are not interchangeable. An a-index or
    dst-index call answered with a flat list of objects, the k-index
    layout, raises [TypeError]: the keys of the first object are taken for
    the elements. Every other call answered with a list wrapped in a list
    raises [TypeError] too. *)
Theorem layout_mismatch_raises self pf log op r j :
  args_ok self op = true ->
  post pf log (request_of self pf op) = Ok r ->
  status_code r = 200 ->
  content r = Some (VDict j) ->
  (nested op = true ->
   forall e rest,
     e <> [] -> dict_get "data" j = Some (VList (VDict e :: rest)) ->
     call self op pf log =
     (Raise TypeError, log ++ [request_of self pf op])) /\
  (nested op = false ->
   forall x rest,
     dict_get "data" j = Some (VList (VList x :: rest)) ->
     call self op pf log =
     (Raise TypeError, log ++ [request_of self pf op])).
Proof.
  intros Hok Hpost Hst Hc. rewrite (call_200 _ _ _ _ _ Hok Hpost Hst).
  unfold response_json. rewrite Hc. cbn [rbind getitem_str].
  split.
  - intros Hn e rest He ->. cbn [rbind py_truthy]. rewrite Hn.
    destruct e as [|[k v] e]; [congruence|].
    cbn. now rewrite non_object_item.
  - intros Hn x rest ->. cbn [rbind py_truthy]. rewrite Hn.
    cbn. now rewrite non_object_item.
Qed.

Lemma layout_mismatch_raises_witness :
  call test_client (OpDstIndex (VStr "") (VStr ""))
    (mock (data_response
       (VList [VDict [("index", VInt 5);
                      ("valid_time", VStr "2021-12-04 00:00:00")]]))) [] =
  (Raise TypeError,
   [index_request test_client "dst-index" (VStr "") (VStr "")
      (VStr "Australian region")]).
Proof.
  refine (proj1 (layout_mismatch_raises test_client
            (mock (data_response
               (VList [VDict [("index", VInt 5);
                              ("valid_time", VStr "2021-12-04 00:00:00")]])))
            [] (OpDstIndex (VStr "") (VStr ""))
            (data_response
               (VList [VDict [("index", VInt 5);
                              ("valid_time", VStr "2021-12-04 00:00:00")]]))
            [("data",
              VList [VDict [("index", VInt 5);
                            ("valid_time", VStr "2021-12-04 00:00:00")]])]
            _ _ _ _) _
            [("index", VInt 5); ("valid_time", VStr "2021-12-04 00:00:00")]
            [] _ _); try reflexivity.
  discriminate.
Defined.

(* ===================================================================== *)
(** ** What a request carries *)
(* ===================================================================== *)

(** X17. Every request of a client that [__init__] returned goes to the
    operation's own path under the service URL, with a timeout of 15
    seconds, the JSON content-type header and the key given to [__init__];
    an aurora or magnetic request carries the key and nothing else. *)
Theorem client_requests key pf0 log0 self log1 op pf log :
  __init__ key pf0 log0 = (Ok self, log1) ->
  args_ok self op = true ->
  exists req,
    snd (call self op pf log) = log ++ [req] /\
    url req = (api_url ++ endpoint op)%string /\
    timeout req = 15 /\
    headers req = default_headers /\
    getitem_str (json req) "api_key" = Ok key /\
    (time_range op = None -> json req = VDict [("api_key", key)]).
Proof.
  intros Hi Hok.
  destruct (constructed_init _ _ _ _ _ Hi) as (_ & Hk & Hh).
  exists (request_of self pf op).
  rewrite (call_run _ _ _ _ Hok).
  destruct op; cbn; rewrite ?Hk, ?Hh; repeat split; discriminate.
Qed.

Lemma client_requests_witness :
  exists req,
    snd (call test_client OpAuroraWatch unreachable []) = [] ++ [req] /\
    url req = (api_url ++ endpoint OpAuroraWatch)%string /\
    timeout req = 15 /\
    headers req = default_headers /\
    getitem_str (json req) "api_key" = Ok (VStr "valid_api_key") /\
    (time_range OpAuroraWatch = None ->
     json req = VDict [("api_key", VStr "valid_api_key")]).
Proof.
  refine (client_requests (VStr "valid_api_key")
            (mock (data_response (VList []))) [] test_client
            [probe_request default_headers (VStr "valid_api_key")]
            OpAuroraWatch unreachable [] _ _); reflexivity.
Defined.

(** X18. The options of an index request: a [start] or [end] given as a
    string is sent as it was given, a [datetime] as the format with minutes
    prints it; [get_k_index] sends the location it was given, of whatever
    type, and "Australian region" when it was given [None];
    [get_a_index] and [get_dst_index] always send "Australian region". *)
Theorem index_request_options self pf log op start end_ :
  args_ok self op = true ->
  time_range op = Some (start, end_) ->
  exists req,
    snd (call self op pf log) = log ++ [req] /\
    (forall s, start = VStr s -> option_of req "start" = Ok (VStr s)) /\
    (forall s, end_ = VStr s -> option_of req "end" = Ok (VStr s)) /\
    (forall t, start = VDatetime t ->
       option_of req "start" =
       Ok (VStr (strftime (libc_pads_year pf) t
                   (_time_format_with_minutes self)))) /\
    (forall t, end_ = VDatetime t ->
       option_of req "end" =
       Ok (VStr (strftime (libc_pads_year pf) t
                   (_time_format_with_minutes self)))) /\
    (forall location,
       op = OpKIndex start end_ location -> location <> VNone ->
       option_of req "location" = Ok location) /\
    ((forall location, op <> OpKIndex start end_ location) ->
     option_of req "location" = Ok (VStr "Australian region")) /\
    (op = OpKIndex start end_ VNone ->
     option_of req "location" = Ok (VStr "Australian region")).
Proof.
  intros Hok Hr. exists (request_of self pf op).
  rewrite (call_run _ _ _ _ Hok).
  split; [reflexivity|].
  destruct op; try discriminate; injection Hr as <- <-;
    cbn [request_of index_request option_of json getitem_str dict_get
         String.eqb Ascii.eqb Bool.eqb rbind];
    (split; [intros ? ->; reflexivity|]);
    (split; [intros ? ->; reflexivity|]);
    (split; [intros ? ->; reflexivity|]);
    (split; [intros ? ->; reflexivity|]);
    (split; [|split]).
  - intros ? [=].
  - reflexivity.
  - intros [=].
  - intros l [= <-] Hl. destruct location; try reflexivity. now destruct Hl.
  - intros H. now destruct (H location).
  - intros [= ->]. reflexivity.
  - intros ? [=].
  - reflexivity.
  - intros [=].
Qed.

Lemma index_request_options_witness :
  exists req,
    snd (call test_client
           (OpKIndex (VStr "2021-1-2 3:4:5") (VStr "") (VStr "Hobart"))
           unreachable []) = [] ++ [req] /\
    option_of req "start" = Ok (VStr "2021-1-2 3:4:5") /\
    option_of req "location" = Ok (VStr "Hobart").
Proof.
  destruct (index_request_options test_client unreachable []
              (OpKIndex (VStr "2021-1-2 3:4:5") (VStr "") (VStr "Hobart"))
              (VStr "2021-1-2 3:4:5") (VStr "") eq_refl eq_refl)
    as (req & Hlog & Hs & _ & _ & _ & Hl & _).
  exists req. split; [exact Hlog|]. split.
  - apply (Hs "2021-1-2 3:4:5"). reflexivity.
  - apply (Hl (VStr "Hobart")); [reflexivity | discriminate].
Defined.

(* ===================================================================== *)
(** ** The examples of the test suite, run *)
(* ===================================================================== *)

(** [test_get_aurora_returns_outlook]: the full timestamp and the two
    dates of an outlook. *)
Example outlook_example :
  call test_client OpAuroraOutlook
    (mock (data_response (VList [VDict example_outlook]))) [] =
  (Ok [AuroraOutlook
         (VDatetime (at_time 2015 1 12 23 18 0))
         (VDatetime (at_time 2015 1 15 0 0 0))
         (VDatetime (at_time 2015 1 17 0 0 0))
         (VStr "coronal mass ejection") (VInt 7) (VStr "mid")
         (VStr "A large active solar region is rotating")],
   [aurora_request test_client "outlook"]).
Proof. reflexivity. Qed.

(** [test_get_kst_index_returns_KIndex], and the default location of
    [get_k_index]. *)
Example k_index_example :
  call test_client (OpKIndex (VStr "") (VStr "") VNone)
    (mock (data_response
       (VList [VDict [("index", VInt 2);
                      ("valid_time", VStr "2021-11-21 03:00:00");
                      ("analysis_time", VStr "2021-11-22 00:07:36")]]))) [] =
  (Ok [KIndex (VDatetime (at_time 2021 11 21 3 0 0))
         (VDatetime (at_time 2021 11 22 0 7 36)) (VInt 2)],
   [index_request test_client "k-index" (VStr "") (VStr "")
      (VStr "Australian region")]).
Proof. reflexivity. Qed.

(** [test_invalid_api_key] and [test_exception_raised_on_http_error]. *)
Example construction_examples :
  fst (__init__ (VStr "0000") (mock (mk_response 403 None)) []) =
  Raise (ValueError "HTTP Error 403 - please pass a valid API key.") /\
  fst (__init__ (VStr "000") (mock (mk_response 500 None)) []) =
  Raise (HTTPError_for_status (mk_response 500 None)) /\
  fst (__init__ (VStr "valid_api_key") (mock (mk_response 200 None)) []) =
  Ok test_client.
Proof. repeat split; reflexivity. Qed.

(** [test_get_mag_alert_returns_mag_alert], and an alert without times. *)
Example mag_alert_examples :
  fst (call test_client OpMagAlert
         (mock (data_response
            (VList [VDict [("start_time", VStr "2015-02-07 08:45:00");
                           ("valid_until", VStr "2015-02-07 20:45:00");
                           ("g_scale", VInt 1);
                           ("description", VStr "minor")]]))) []) =
  Ok [MagAlert (VDatetime (at_time 2015 2 7 8 45 0))
        (VDatetime (at_time 2015 2 7 20 45 0)) (VInt 1) (VStr "minor")] /\
  fst (call test_client OpMagAlert
         (mock (data_response
            (VList [VDict [("g_scale", VInt 1);
                           ("description", VStr "minor")]]))) []) =
  Ok [MagAlert VNone VNone (VInt 1) (VStr "minor")].
Proof. split; reflexivity. Qed.
